(** * README generator MCP server

    A shallow embedding of [build/index.js]: the bounded directory scanner
    ([getDirectoryStructure]), the project analyzer ([analyzeProject]), the
    tree renderer ([formatDirectoryStructure]), the README renderer
    ([generateReadme]) and the handler that dispatches tool calls.

    The file system, the [path] module and the JSON codec are primitives of
    the host and are gathered in the record [Host].  JavaScript exceptions
    are modelled by an error monad and [async]/[await] by plain sequencing:
    a call has a single thread of control.  [currentDepth] counts levels
    and is an integer; [maxDepth] is an integer in [getDirectoryStructure]
    and any finite number in [getDirectoryStructure_number], which agree
    on integers. *)

From Stdlib Require Import List String Ascii ZArith Lia Bool Arith Floats.
From Stdlib Require Import DecimalString QArith Qround.
Import ListNotations.

Close Scope Q_scope.

Local Open Scope string_scope.
Local Open Scope list_scope.

Infix "+++" := String.append (at level 60, right associativity).

(** ** JavaScript primitives used by the program *)

Module Js.

(** The line feed written [\n] in the source. *)
Definition LF : string := String "010"%char "".

(** [String.prototype.includes]: [pattern] occurs in [s] as a substring. *)
Fixpoint includes (s pattern : string) : bool :=
  String.prefix pattern s ||
  match s with
  | EmptyString => false
  | String _ s' => includes s' pattern
  end.

(** [Array.prototype.includes] on an array of strings. *)
Definition arr_includes (arr : list string) (x : string) : bool :=
  existsb (String.eqb x) arr.

(** [String.prototype.repeat]. *)
Fixpoint repeat (s : string) (n : nat) : string :=
  match n with
  | O => ""
  | S n' => s +++ repeat s n'
  end.

(** [Array.prototype.join(sep)] on an array of strings. *)
Definition join (sep : string) (arr : list string) : string :=
  String.concat sep arr.

(** [a || b] on strings: the empty string is the only falsy string. *)
Definition or_else (a b : string) : string :=
  if String.eqb a "" then b else a.

(** An [Error] object: its [name] and its [message]. *)
Record Error : Type := mkError { name : string; message : string }.

(** [new Error(msg)]. *)
Definition newError (msg : string) : Error := mkError "Error" msg.

(** [Error.prototype.toString], what a template literal prints of an error. *)
Definition toString (e : Error) : string :=
  if String.eqb (name e) "" then message e
  else if String.eqb (message e) "" then name e
  else name e +++ ": " +++ message e.

(** The values [JSON.parse] produces, and [undefined].  An object lists its
    own properties in enumeration order. *)
#[warnings="-register-all"]
Inductive Value : Type :=
| Undefined
| Null
| Bool (b : bool)
| Number (x : float)
| Str (s : string)
| Array (elements : list Value)
| Object (properties : list (string * Value)).

(** Truthiness: [undefined], [null], [false], [0], [NaN] and the empty
    string are falsy. *)
Definition truthy (v : Value) : bool :=
  match v with
  | Undefined | Null => false
  | Bool b => b
  | Number x => negb (PrimFloat.eqb x 0%float || PrimFloat.is_nan x)
  | Str s => negb (String.eqb s "")
  | Array _ | Object _ => true
  end.

(** [a || b] on values. *)
Definition or (a b : Value) : Value := if truthy a then a else b.

Definition index_key (i : nat) : string :=
  NilZero.string_of_uint (Nat.to_uint i).

(** The own enumerable properties of a value: those of an object, the
    indexed elements of an array, the indexed characters of a string (one
    per character of the model's string, which is one per UTF-16 code unit
    for ASCII text).  The program reads them of truthy values only. *)
Definition own_properties (v : Value) : list (string * Value) :=
  match v with
  | Object properties => properties
  | Array elements =>
      combine (map index_key (seq 0 (List.length elements))) elements
  | Str s =>
      combine (map index_key (seq 0 (String.length s)))
              (map (fun c => Str (String c "")) (list_ascii_of_string s))
  | _ => []
  end.

(** [Object.keys(v)]. *)
Definition keys (v : Value) : list string := map fst (own_properties v).

(** [v.key], [v?.key] and [v[key]] for the keys the program reads; none of
    them is a property of a prototype. *)
Definition get (v : Value) (key : string) : Value :=
  match find (fun p => String.eqb (fst p) key) (own_properties v) with
  | Some p => snd p
  | None => Undefined
  end.

End Js.

(** ** Exceptions: the result of a call is a value or a thrown error *)

Inductive outcome (A : Type) : Type :=
| Return (a : A)
| Throw (e : Js.Error).

Arguments Return {A} a.
Arguments Throw {A} e.

Definition bind {A B : Type} (m : outcome A) (k : A -> outcome B) : outcome B :=
  match m with
  | Return a => k a
  | Throw e => Throw e
  end.

(** [try { m } catch (error) { h error }]. *)
Definition try_catch {A : Type} (m : outcome A) (h : Js.Error -> outcome A)
  : outcome A :=
  match m with
  | Return a => Return a
  | Throw e => h e
  end.

Notation "x <- m ;; k" := (bind m (fun x => k))
  (at level 61, m at next level, right associativity).

Definition throws {A : Type} (m : outcome A) : Prop :=
  exists e, m = Throw e.

(** ** The data model *)

(** A [Dirent] of [readdir(path, { withFileTypes: true })]. *)
Record Dirent : Type := mkDirent { d_name : string; d_isDirectory : bool }.

(** [{ type: "file", name, path }] or [{ type: "directory", name, children }].
    Every directory node the program builds carries a [children] array
    (line 78), so the guard [if (node.children)] of the renderer always
    holds on them. *)
#[warnings="-register-all"]
Inductive DirectoryNode : Type :=
| FileNode (name path : string)
| DirNode (name : string) (children : list DirectoryNode).

Definition node_name (n : DirectoryNode) : string :=
  match n with
  | FileNode name _ => name
  | DirNode name _ => name
  end.

Definition node_children (n : DirectoryNode) : list DirectoryNode :=
  match n with
  | FileNode _ _ => []
  | DirNode _ children => children
  end.

Definition is_directory (n : DirectoryNode) : bool :=
  match n with
  | FileNode _ _ => false
  | DirNode _ _ => true
  end.

(** [README_TEMPLATE] (lines 7-60). *)
Record TemplateSection : Type :=
  mkSection { s_name : string; s_description : string; s_required : bool }.

Definition README_TEMPLATE : list TemplateSection :=
  [ mkSection "Project Title" "The main title/name of the project" true;
    mkSection "Description" "A brief overview of what the project does" true;
    mkSection "Features" "Key features and capabilities of the project" false;
    mkSection "Installation" "Steps to install and set up the project" true;
    mkSection "Usage" "How to use the project, including examples" true;
    mkSection "Project Structure" "Directory/file structure overview" false;
    mkSection "Technologies Used"
              "List of technologies, frameworks, and tools used" false;
    mkSection "Configuration"
              "Configuration options, environment variables, etc." false;
    mkSection "Contributing" "Guidelines for contributing to the project" false;
    mkSection "License" "License information" false ].

(** The [projectData] object of lines 163-183. *)
Record ProjectData : Type := mkProjectData {
  projectName : Js.Value;
  description : Js.Value;
  version : Js.Value;
  author : Js.Value;
  license : Js.Value;
  homepage : Js.Value;
  repository : Js.Value;
  scripts : Js.Value;
  dependencies : list string;
  devDependencies : list string;
  detectedTechnologies : list string;
  configFiles : list string;
  directoryStructure : option DirectoryNode;
  directoryStructureFormatted : string;
  rootFiles : list string
}.

Record Analysis : Type := mkAnalysis {
  template : list TemplateSection;
  projectData : ProjectData
}.

(** The host: the file system ([readdir] with file types, [readFile] as
    text), [path.join], [path.parse(p).base], [JSON.parse], the three uses
    of [JSON.stringify] and the string conversion of a value. *)
Record Host : Type := mkHost {
  readdir : string -> outcome (list Dirent);
  readFile : string -> outcome string;
  path_join : string -> string -> string;
  path_base : string -> string;
  JSON_parse : string -> outcome Js.Value;
  stringify_structure : option DirectoryNode -> string;
  stringify_analysis : Analysis -> string;
  stringify_value : Js.Value -> string;
  String_of : Js.Value -> string
}.

(** [`${v}`]: a string prints as itself; the conversion of another value
    is the host's and is taken to return (in JavaScript it throws a
    [TypeError] on an object whose own [toString] and [valueOf] are not
    callable). *)
Definition template_string (h : Host) (v : Js.Value) : string :=
  match v with
  | Js.Str s => s
  | _ => String_of h v
  end.

(** [readdir(path)] without file types: the names of the same listing. *)
Definition readdir_names (h : Host) (path : string) : outcome (list string) :=
  entries <- readdir h path ;;
  Return (map d_name entries).

(** ** The directory scanner (lines 62-104) *)

Definition defaultIgnorePatterns : list string :=
  ["node_modules"; ".git"; "dist"; "build"; ".next"; "coverage"].

Definition defaultMaxDepth : Z := 3%Z.

(** [ignorePatterns.some((pattern) => entry.name.includes(pattern))]. *)
Definition ignored (ignorePatterns : list string) (entry : Dirent) : bool :=
  existsb (fun pattern => Js.includes (d_name entry) pattern) ignorePatterns.

(** The [for (const entry of entries)] loop of lines 80-98; [recurse] is
    the recursive call at [currentDepth + 1], [children] the array built
    so far.  An exception of the recursive call leaves the loop. *)
Fixpoint scanEntries (h : Host)
         (recurse : string -> outcome (option DirectoryNode))
         (dirPath : string) (ignorePatterns : list string)
         (entries : list Dirent) (children : list DirectoryNode)
  : outcome (list DirectoryNode) :=
  match entries with
  | [] => Return children
  | entry :: rest =>
      if ignored ignorePatterns entry then
        scanEntries h recurse dirPath ignorePatterns rest children
      else
        let fullPath := path_join h dirPath (d_name entry) in
        if d_isDirectory entry then
          subStructure <- recurse fullPath ;;
          match subStructure with
          | Some sub =>
              scanEntries h recurse dirPath ignorePatterns rest (children ++ [sub])
          | None =>
              scanEntries h recurse dirPath ignorePatterns rest children
          end
        else
          scanEntries h recurse dirPath ignorePatterns rest
                      (children ++ [FileNode (d_name entry) fullPath])
  end.

(** The [catch] of lines 101-103. *)
Definition failedToRead (error : Js.Error) : Js.Error :=
  Js.newError ("Failed to read directory: " +++ Js.toString error).

(** [getDirectoryStructure], by recursion on a bound on the number of
    nested calls.  [None] is JavaScript's [null]. *)
Fixpoint getDirectoryStructure_rec (h : Host) (fuel : nat) (dirPath : string)
         (maxDepth currentDepth : Z) (ignorePatterns : list string)
  : outcome (option DirectoryNode) :=
  if (currentDepth >=? maxDepth)%Z then Return None
  else
    match fuel with
    | O => Return None
    | S fuel' =>
        try_catch
          (entries <- readdir h dirPath ;;
           children <-
             scanEntries h
               (fun fullPath =>
                  getDirectoryStructure_rec h fuel' fullPath maxDepth
                                            (currentDepth + 1)%Z ignorePatterns)
               dirPath ignorePatterns entries [] ;;
           Return (Some (DirNode (Js.or_else (path_base h dirPath) dirPath)
                                 children)))
          (fun error => Throw (failedToRead error))
    end.

(** Each nested call raises [currentDepth] by one and calls nothing once
    [currentDepth >= maxDepth]: [maxDepth - currentDepth] nested calls are
    all there can be (see [getDirectoryStructure_eq]). *)
Definition getDirectoryStructure (h : Host) (dirPath : string)
           (maxDepth currentDepth : Z) (ignorePatterns : list string)
  : outcome (option DirectoryNode) :=
  getDirectoryStructure_rec h (Z.to_nat (maxDepth - currentDepth))
                            dirPath maxDepth currentDepth ignorePatterns.

(** The directories the scan lists, in the order of the [readdir] calls:
    the same traversal as [scanEntries] and [getDirectoryStructure_rec],
    recording the argument of each [readdir]. *)
Fixpoint visitedEntries (h : Host)
         (recurse : string -> outcome (option DirectoryNode))
         (visit : string -> list string)
         (dirPath : string) (ignorePatterns : list string)
         (entries : list Dirent) : list string :=
  match entries with
  | [] => []
  | entry :: rest =>
      if ignored ignorePatterns entry then
        visitedEntries h recurse visit dirPath ignorePatterns rest
      else
        let fullPath := path_join h dirPath (d_name entry) in
        if d_isDirectory entry then
          visit fullPath ++
          match recurse fullPath with
          | Return _ =>
              visitedEntries h recurse visit dirPath ignorePatterns rest
          | Throw _ => []
          end
        else
          visitedEntries h recurse visit dirPath ignorePatterns rest
  end.

Fixpoint visited_rec (h : Host) (fuel : nat) (dirPath : string)
         (maxDepth currentDepth : Z) (ignorePatterns : list string)
  : list string :=
  if (currentDepth >=? maxDepth)%Z then []
  else
    match fuel with
    | O => []
    | S fuel' =>
        dirPath ::
        match readdir h dirPath with
        | Return entries =>
            visitedEntries h
              (fun fullPath =>
                 getDirectoryStructure_rec h fuel' fullPath maxDepth
                                           (currentDepth + 1)%Z ignorePatterns)
              (fun fullPath =>
                 visited_rec h fuel' fullPath maxDepth
                             (currentDepth + 1)%Z ignorePatterns)
              dirPath ignorePatterns entries
        | Throw _ => []
        end
    end.

Definition visited (h : Host) (dirPath : string) (maxDepth currentDepth : Z)
           (ignorePatterns : list string) : list string :=
  visited_rec h (Z.to_nat (maxDepth - currentDepth))
              dirPath maxDepth currentDepth ignorePatterns.

(** The scanner with [maxDepth] as the number the caller gives it.  Every
    finite JavaScript number is a rational; line 70 compares it with the
    integer [currentDepth] as it is, without rounding, so a bound of 2.5
    stops the recursion at [currentDepth = 3].  The recursion is by the
    same bound on nested calls, [ceil(maxDepth) - currentDepth]. *)
Fixpoint getDirectoryStructure_number_rec (h : Host) (fuel : nat)
         (dirPath : string) (maxDepth : Q) (currentDepth : Z)
         (ignorePatterns : list string)
  : outcome (option DirectoryNode) :=
  if Qle_bool maxDepth (inject_Z currentDepth) then Return None
  else
    match fuel with
    | O => Return None
    | S fuel' =>
        try_catch
          (entries <- readdir h dirPath ;;
           children <-
             scanEntries h
               (fun fullPath =>
                  getDirectoryStructure_number_rec h fuel' fullPath maxDepth
                                                   (currentDepth + 1)%Z
                                                   ignorePatterns)
               dirPath ignorePatterns entries [] ;;
           Return (Some (DirNode (Js.or_else (path_base h dirPath) dirPath)
                                 children)))
          (fun error => Throw (failedToRead error))
    end.

Definition getDirectoryStructure_number (h : Host) (dirPath : string)
           (maxDepth : Q) (currentDepth : Z) (ignorePatterns : list string)
  : outcome (option DirectoryNode) :=
  getDirectoryStructure_number_rec h
    (Z.to_nat (Qceiling maxDepth - currentDepth))
    dirPath maxDepth currentDepth ignorePatterns.

(** The nesting depth of a tree: a node alone has depth 0, as the root has
    [currentDepth = 0] in the scan and [depth = 0] in the renderer. *)
Fixpoint tree_depth (n : DirectoryNode) : nat :=
  match n with
  | FileNode _ _ => 0
  | DirNode _ children =>
      fold_right (fun child d => Nat.max (S (tree_depth child)) d) 0 children
  end.

(** The nodes strictly below a node. *)
Fixpoint descendants (n : DirectoryNode) : list DirectoryNode :=
  match n with
  | FileNode _ _ => []
  | DirNode _ children =>
      flat_map (fun child => child :: descendants child) children
  end.

(** ** The tree renderer (lines 190-205) *)

Fixpoint formatDirectoryStructure (node : DirectoryNode) (depth : nat) : string :=
  let indent := Js.repeat "  " depth in
  match node with
  | DirNode name children =>
      fold_left
        (fun result child => result +++ formatDirectoryStructure child (depth + 1))
        children
        ("" +++ (indent +++ name +++ "/" +++ Js.LF))
  | FileNode name _ =>
      "" +++ (indent +++ name +++ Js.LF)
  end.

(** ** The project analyzer (lines 106-189) *)

(** One [if (files.includes(marker)) { ... push(label); ... push(marker) }]
    on the two arrays [(detectedTechnologies, configFiles)]. *)
Definition detectMarker (files : list string) (marker label : string)
           (arrays : list string * list string) : list string * list string :=
  if Js.arr_includes files marker
  then (fst arrays ++ [label], snd arrays ++ [marker])
  else arrays.

(** Lines 157-159: the environment template is a config file only. *)
Definition detectEnv (files : list string)
           (arrays : list string * list string) : list string * list string :=
  if Js.arr_includes files ".env.example" || Js.arr_includes files ".env.template"
  then
    (fst arrays,
     snd arrays ++
       [match find (fun f => String.eqb f ".env.example") files with
        | Some f => Js.or_else f ".env.template"
        | None => ".env.template"
        end])
  else arrays.

(** Lines 119-159, in the order of the source. *)
Definition detect (files : list string) : list string * list string :=
  let arrays := ([], []) in
  let arrays := detectMarker files "package.json" "Node.js" arrays in
  let arrays := detectMarker files "tsconfig.json" "TypeScript" arrays in
  let arrays := detectMarker files "requirements.txt" "Python" arrays in
  let arrays := detectMarker files "setup.py" "Python" arrays in
  let arrays := detectMarker files "Cargo.toml" "Rust" arrays in
  let arrays := detectMarker files "go.mod" "Go" arrays in
  let arrays := detectMarker files "pom.xml" "Java" arrays in
  let arrays := detectMarker files "build.gradle" "Java/Gradle" arrays in
  let arrays := detectMarker files "Dockerfile" "Docker" arrays in
  detectEnv files arrays.

(** Lines 109-117: a failure to read or to parse [package.json] leaves
    [packageJson] at [null]. *)
Definition readPackageJson (h : Host) (projectPath : string) : Js.Value :=
  match
    try_catch
      (let packagePath := path_join h projectPath "package.json" in
       packageContent <- readFile h packagePath ;;
       JSON_parse h packageContent)
      (fun _ => Return Js.Null)
  with
  | Return packageJson => packageJson
  | Throw _ => Js.Null
  end.

(** [x ? Object.keys(x) : []]. *)
Definition keys_or_empty (x : Js.Value) : list string :=
  if Js.truthy x then Js.keys x else [].

(** [formatDirectoryStructure(structure, 0)] on a [structure] that may be
    [null]: reading [node.type] of [null] is a [TypeError]. *)
Definition formatStructure (structure : option DirectoryNode) : outcome string :=
  match structure with
  | Some node => Return (formatDirectoryStructure node 0)
  | None =>
      Throw (Js.mkError "TypeError"
                        "Cannot read properties of null (reading 'type')")
  end.

Definition failedToAnalyze (error : Js.Error) : Js.Error :=
  Js.newError ("Failed to analyze project: " +++ Js.toString error).

Definition analyzeProject (h : Host) (projectPath : string) : outcome Analysis :=
  try_catch
    (structure <-
       getDirectoryStructure h projectPath defaultMaxDepth 0 defaultIgnorePatterns ;;
     let packageJson := readPackageJson h projectPath in
     files <- readdir_names h projectPath ;;
     let arrays := detect files in
     structureString <- formatStructure structure ;;
     Return
           (mkAnalysis README_TEMPLATE
              (mkProjectData
                 (Js.or (Js.get packageJson "name")
                        (Js.Str (path_base h projectPath)))
                 (Js.or (Js.get packageJson "description") Js.Null)
                 (Js.or (Js.get packageJson "version") Js.Null)
                 (Js.or (Js.get packageJson "author") Js.Null)
                 (Js.or (Js.get packageJson "license") Js.Null)
                 (Js.or (Js.get packageJson "homepage") Js.Null)
                 (Js.or (Js.get packageJson "repository") Js.Null)
                 (Js.or (Js.get packageJson "scripts") (Js.Object []))
                 (keys_or_empty (Js.get packageJson "dependencies"))
                 (keys_or_empty (Js.get packageJson "devDependencies"))
                 (fst arrays)
                 (snd arrays)
                 structure
                 structureString
                 files)))
    (fun error => Throw (failedToAnalyze error)).

(** ** The README renderer (lines 207-320) *)

Definition CHECKMARK : string := "âœ“".

(** Lines 213-227: the badges, in push order. *)
Definition badges (h : Host) (p : ProjectData) : list string :=
  (if Js.truthy (version p)
   then ["![Version](https://img.shields.io/badge/version-" +++
           template_string h (version p) +++ "-blue.svg)"]
   else []) ++
  (if Js.truthy (license p)
   then ["![License](https://img.shields.io/badge/license-" +++
           template_string h (license p) +++ "-green.svg)"]
   else []) ++
  (if Js.arr_includes (detectedTechnologies p) "Node.js"
   then ["![Node.js](https://img.shields.io/badge/node.js-" +++ CHECKMARK +++
           "-brightgreen.svg)"]
   else []) ++
  (if Js.arr_includes (detectedTechnologies p) "TypeScript"
   then ["![TypeScript](https://img.shields.io/badge/typescript-" +++ CHECKMARK +++
           "-blue.svg)"]
   else []) ++
  (if Js.arr_includes (detectedTechnologies p) "Python"
   then ["![Python](https://img.shields.io/badge/python-" +++ CHECKMARK +++
           "-yellow.svg)"]
   else []) ++
  (if Js.arr_includes (detectedTechnologies p) "Rust"
   then ["![Rust](https://img.shields.io/badge/rust-" +++ CHECKMARK +++
           "-orange.svg)"]
   else []) ++
  (if Js.arr_includes (detectedTechnologies p) "Go"
   then ["![Go](https://img.shields.io/badge/go-" +++ CHECKMARK +++
           "-00ADD8.svg)"]
   else []).

(** [items.forEach((x) => { readme += `- ${x}\n`; })]. *)
Definition bullets (items : list string) : string :=
  fold_left (fun readme x => readme +++ "- " +++ x +++ Js.LF) items "".

(** Line 211. *)
Definition titleSection (h : Host) (p : ProjectData) : string :=
  "# " +++ template_string h (projectName p) +++ Js.LF +++ Js.LF.

(** Lines 228-230. *)
Definition badgesSection (h : Host) (p : ProjectData) : string :=
  if (0 <? List.length (badges h p))%nat
  then Js.join " " (badges h p) +++ Js.LF +++ Js.LF
  else "".

(** Lines 232-234. *)
Definition descriptionSection (h : Host) (p : ProjectData) : string :=
  if Js.truthy (description p)
  then "## ðŸ“ Description" +++ Js.LF +++ Js.LF +++
       template_string h (description p) +++ Js.LF +++ Js.LF
  else "".

(** Lines 236-242. *)
Definition technologiesSection (p : ProjectData) : string :=
  if (0 <? List.length (detectedTechnologies p))%nat
  then "## ðŸ› ï¸ Technologies Used" +++ Js.LF +++ Js.LF +++
       bullets (detectedTechnologies p) +++ Js.LF
  else "".

Definition installationHeading : string :=
  "## ðŸ“¦ Installation" +++ Js.LF +++ Js.LF.

(** Lines 247-258: the [if]/[else if] chain inside the code block. *)
Definition installCommand (p : ProjectData) : string :=
  if Js.arr_includes (detectedTechnologies p) "Node.js" then
    "npm install" +++ Js.LF
  else if Js.arr_includes (detectedTechnologies p) "Python" then
    "pip install -r requirements.txt" +++ Js.LF
  else if Js.arr_includes (detectedTechnologies p) "Rust" then
    "cargo build" +++ Js.LF
  else if Js.arr_includes (detectedTechnologies p) "Go" then
    "go mod download" +++ Js.LF
  else "".

(** Lines 245-263, after the heading. *)
Definition installationBody (p : ProjectData) : string :=
  if (0 <? List.length (dependencies p))%nat ||
     (0 <? List.length (devDependencies p))%nat
  then "```bash" +++ Js.LF +++ installCommand p +++ "```" +++ Js.LF +++ Js.LF
  else "Clone the repository and follow the setup instructions." +++
       Js.LF +++ Js.LF.

(** Lines 244-263. *)
Definition installationSection (p : ProjectData) : string :=
  installationHeading +++ installationBody p.

(** Lines 265-273. *)
Definition usageSection (h : Host) (p : ProjectData) : string :=
  let scriptKeys := Js.keys (scripts p) in
  if (0 <? List.length scriptKeys)%nat
  then "## ðŸš€ Usage" +++ Js.LF +++ Js.LF +++
       "Available scripts:" +++ Js.LF +++ Js.LF +++
       fold_left
         (fun readme script =>
            readme +++
            ("```bash" +++ Js.LF +++ "npm run " +++ script +++ Js.LF +++
             "```" +++ Js.LF) +++
            (template_string h (Js.get (scripts p) script) +++ Js.LF +++ Js.LF))
         scriptKeys ""
  else "".

(** Lines 275-278. *)
Definition structureSection (p : ProjectData) : string :=
  if negb (String.eqb (directoryStructureFormatted p) "")
  then "## ðŸ“ Project Structure" +++ Js.LF +++ Js.LF +++
       "```" +++ Js.LF +++ directoryStructureFormatted p +++ "```" +++
       Js.LF +++ Js.LF
  else "".

(** Lines 280-286. *)
Definition dependenciesSection (p : ProjectData) : string :=
  if (0 <? List.length (dependencies p))%nat
  then "## ðŸ“š Dependencies" +++ Js.LF +++ Js.LF +++
       bullets (dependencies p) +++ Js.LF
  else "".

(** Lines 288-294. *)
Definition devDependenciesSection (p : ProjectData) : string :=
  if (0 <? List.length (devDependencies p))%nat
  then "## ðŸ”§ Dev Dependencies" +++ Js.LF +++ Js.LF +++
       bullets (devDependencies p) +++ Js.LF
  else "".

(** Lines 296-299. *)
Definition licenseSection (h : Host) (p : ProjectData) : string :=
  if Js.truthy (license p)
  then "## ðŸ“„ License" +++ Js.LF +++ Js.LF +++
       "This project is licensed under the " +++
       template_string h (license p) +++ " License." +++ Js.LF +++ Js.LF
  else "".

(** Lines 301-304. *)
Definition authorSection (h : Host) (p : ProjectData) : string :=
  if Js.truthy (author p)
  then "## ðŸ‘¤ Author" +++ Js.LF +++ Js.LF +++
       match author p with
       | Js.Str s => s
       | a => stringify_value h a
       end +++ Js.LF +++ Js.LF
  else "".

(** Lines 306-315. *)
Definition linksSection (h : Host) (p : ProjectData) : string :=
  if Js.truthy (homepage p) || Js.truthy (repository p)
  then "## ðŸ”— Links" +++ Js.LF +++ Js.LF +++
       (if Js.truthy (homepage p)
        then "- [Homepage](" +++ template_string h (homepage p) +++ ")" +++ Js.LF
        else "") +++
       (if Js.truthy (repository p)
        then
          let repoUrl :=
            match repository p with
            | Js.Str s => Js.Str s
            | r => Js.get r "url"
            end in
          "- [Repository](" +++ template_string h repoUrl +++ ")" +++ Js.LF
        else "") +++
       Js.LF
  else "".

(** Lines 317-318. *)
Definition footer : string :=
  "---" +++ Js.LF +++ Js.LF +++
  "*Generated with â¤ï¸ by README Generator MCP Server*" +++ Js.LF.

(** [generateReadme]: [readme] starts empty and each section is appended
    to it in turn. *)
Definition generateReadme (h : Host) (p : ProjectData) : string :=
  fold_left String.append
    [ titleSection h p;
      badgesSection h p;
      descriptionSection h p;
      technologiesSection p;
      installationSection p;
      usageSection h p;
      structureSection p;
      dependenciesSection p;
      devDependenciesSection p;
      licenseSection h p;
      authorSection h p;
      linksSection h p;
      footer ]
    "".

(** ** The tool dispatch handler (lines 403-471) *)

(** [request.params]: the tool name and its arguments, present and of the
    types the input schemas give them; [maxDepth] may be absent and is an
    integer when given. *)
Record CallToolRequest : Type := mkRequest {
  tool : string;
  arg_path : string;
  arg_maxDepth : option Z;
  arg_projectPath : string
}.

(** What the handler returns: one text content and the [isError] flag
    (absent, hence falsy, in the responses of lines 410-454). *)
Record CallToolResult : Type := mkResult { text : string; isError : bool }.

Definition handleCallTool (h : Host) (request : CallToolRequest)
  : outcome CallToolResult :=
  try_catch
    (if String.eqb (tool request) "read_project_structure" then
       let path := arg_path request in
       let maxDepth :=
         match arg_maxDepth request with
         | Some d => d
         | None => 3%Z
         end in
       structure <-
         getDirectoryStructure h path maxDepth 0 defaultIgnorePatterns ;;
       Return (mkResult (stringify_structure h structure) false)
     else if String.eqb (tool request) "read_file" then
       let path := arg_path request in
       content <- readFile h path ;;
       Return (mkResult content false)
     else if String.eqb (tool request) "analyze_project" then
       let projectPath := arg_projectPath request in
       analysis <- analyzeProject h projectPath ;;
       Return (mkResult (stringify_analysis h analysis) false)
     else if String.eqb (tool request) "generate_readme" then
       let projectPath := arg_projectPath request in
       analysis <- analyzeProject h projectPath ;;
       let readme := generateReadme h (projectData analysis) in
       Return (mkResult readme false)
     else
       Throw (Js.newError ("Unknown tool: " +++ tool request)))
    (fun error => Return (mkResult ("Error: " +++ Js.message error) true)).

(** ** Reference definitions the properties are stated against *)

(** One rendered line: nesting depth, kind and name of a node. *)
Record Line : Type := mkLine { l_depth : nat; l_isDir : bool; l_name : string }.

(** The nodes of a tree in pre-order (a node before its children, the
    children left to right), each with its nesting depth. *)
Fixpoint preorder (node : DirectoryNode) (depth : nat) : list Line :=
  match node with
  | FileNode name _ => [mkLine depth false name]
  | DirNode name children =>
      mkLine depth true name ::
      flat_map (fun child => preorder child (S depth)) children
  end.

(** Two spaces per level, the name, [/] after a directory, a line feed. *)
Definition renderLine (l : Line) : string :=
  Js.repeat "  " (l_depth l) +++ l_name l +++
  (if l_isDir l then "/" else "") +++ Js.LF.

(** Reading the text back.  The lines of a text, each ended by a line feed. *)
Fixpoint splitLines (text : string) : list string :=
  match text with
  | EmptyString => []
  | String c rest =>
      if Ascii.eqb c "010"%char then "" :: splitLines rest
      else
        match splitLines rest with
        | [] => [String c ""]
        | l :: ls => String c l :: ls
        end
  end.

(** The indentation of a line: the number of leading pairs of spaces, and
    what follows them. *)
Fixpoint parseIndent (line : string) : nat * string :=
  match line with
  | String c1 (String c2 rest) =>
      if Ascii.eqb c1 " "%char && Ascii.eqb c2 " "%char
      then (S (fst (parseIndent rest)), snd (parseIndent rest))
      else (0, line)
  | _ => (0, line)
  end.

(** [s] without its last character, and whether that character is [/]. *)
Fixpoint dropLast (s : string) : string :=
  match s with
  | EmptyString => ""
  | String c EmptyString => ""
  | String c rest => String c (dropLast rest)
  end.

Fixpoint endsWithSlash (s : string) : bool :=
  match s with
  | EmptyString => false
  | String c EmptyString => Ascii.eqb c "/"%char
  | String _ rest => endsWithSlash rest
  end.

Definition parseLine (line : string) : Line :=
  let (depth, rest) := parseIndent line in
  if endsWithSlash rest then mkLine depth true (dropLast rest)
  else mkLine depth false rest.

(** Re-parsing a rendered tree as the specification words it: two spaces
    per level, a final [/] marks a directory. *)
Definition parseStructure (text : string) : list Line :=
  map parseLine (splitLines text).

(** What the re-parsing recovers of a tree: names and nesting depths. *)
Definition names_and_depths (ls : list Line) : list (string * nat) :=
  map (fun l => (l_name l, l_depth l)) ls.

(** Names the indented text can carry: no line feed inside, no space in
    front, and no [/] at the end of a file name. *)
Fixpoint noLineFeed (s : string) : bool :=
  match s with
  | EmptyString => true
  | String c rest => negb (Ascii.eqb c "010"%char) && noLineFeed rest
  end.

Definition noLeadingSpace (s : string) : bool :=
  match s with
  | String c _ => negb (Ascii.eqb c " "%char)
  | EmptyString => true
  end.

Definition plainName (isDir : bool) (s : string) : bool :=
  noLineFeed s && noLeadingSpace s && (isDir || negb (endsWithSlash s)).

Fixpoint plainTree (node : DirectoryNode) : bool :=
  match node with
  | FileNode name _ => plainName false name
  | DirNode name children => plainName true name && forallb plainTree children
  end.

(** The marker table of the analyzer, in the order of lines 121-156. *)
Definition markerTable : list (string * string) :=
  [ ("package.json", "Node.js");
    ("tsconfig.json", "TypeScript");
    ("requirements.txt", "Python");
    ("setup.py", "Python");
    ("Cargo.toml", "Rust");
    ("go.mod", "Go");
    ("pom.xml", "Java");
    ("build.gradle", "Java/Gradle");
    ("Dockerfile", "Docker") ].

(** The labels of the markers present, in table order. *)
Definition labelsInTableOrder (files : list string) : list string :=
  map snd (filter (fun m => Js.arr_includes files (fst m)) markerTable).



(** What one entry adds to [children] when no call throws. *)
Definition entryNodes (h : Host)
           (recurse : string -> outcome (option DirectoryNode))
           (dirPath : string) (ignorePatterns : list string) (entry : Dirent)
  : list DirectoryNode :=
  if ignored ignorePatterns entry then []
  else if d_isDirectory entry then
    match recurse (path_join h dirPath (d_name entry)) with
    | Return (Some sub) => [sub]
    | _ => []
    end
  else [FileNode (d_name entry) (path_join h dirPath (d_name entry))].

(** The directories that can be reached from [root] through entries that
    are directories and are not ignored. *)
Inductive reachable (h : Host) (ignorePatterns : list string) (root : string)
  : string -> Prop :=
| reach_root : reachable h ignorePatterns root root
| reach_entry dirPath entries entry :
    reachable h ignorePatterns root dirPath ->
    readdir h dirPath = Return entries ->
    In entry entries ->
    ignored ignorePatterns entry = false ->
    d_isDirectory entry = true ->
    reachable h ignorePatterns root (path_join h dirPath (d_name entry)).

(** [node] stands for an entry that is not ignored, in a directory that is
    reachable from [root]: a file node carries the entry's name and full
    path, a directory node the base name of the entry's full path. *)
Definition node_from (h : Host) (ignorePatterns : list string) (root : string)
           (node : DirectoryNode) : Prop :=
  exists dirPath entries entry,
    reachable h ignorePatterns root dirPath /\
    readdir h dirPath = Return entries /\
    In entry entries /\
    ignored ignorePatterns entry = false /\
    let fullPath := path_join h dirPath (d_name entry) in
    match node with
    | FileNode name path =>
        d_isDirectory entry = false /\ name = d_name entry /\ path = fullPath
    | DirNode name _ =>
        d_isDirectory entry = true /\
        name = Js.or_else (path_base h fullPath) fullPath
    end.

(** The [path] module on listed entries: an entry has a name, and it is
    the base name of its full path. *)
Definition entry_names_are_base_names (h : Host) : Prop :=
  forall dirPath entries entry,
    readdir h dirPath = Return entries ->
    In entry entries ->
    d_name entry <> "" /\
    path_base h (path_join h dirPath (d_name entry)) = d_name entry.

(** The manifest cannot be read, or what is read does not parse. *)
Definition manifest_fails (h : Host) (projectPath : string) : Prop :=
  throws (readFile h (path_join h projectPath "package.json")) \/
  exists content,
    readFile h (path_join h projectPath "package.json") = Return content /\
    throws (JSON_parse h content).

(** [maxDepth = 3] when the request gives none (line 408). *)
Definition requestedDepth (request : CallToolRequest) : Z :=
  match arg_maxDepth request with
  | Some d => d
  | None => 3%Z
  end.

(** The environment template recorded as a config file: [.env.example] when
    it is listed, else [.env.template] when that is listed. *)
Definition envConfig (files : list string) : list string :=
  if Js.arr_includes files ".env.example" then [".env.example"]
  else if Js.arr_includes files ".env.template" then [".env.template"]
  else [].

(** ** The tool list (lines 329-402) *)

(** One property of an input schema, and one tool of the list. *)
Record ToolProperty : Type := mkProperty {
  p_name : string;
  p_type : string;
  p_description : string;
  p_default : option Z
}.

Record Tool : Type := mkTool {
  t_name : string;
  t_description : string;
  t_properties : list ToolProperty;
  t_required : list string
}.

(** What the [ListToolsRequestSchema] handler returns. *)
Definition listTools : list Tool :=
  [ mkTool "read_project_structure"
      "Read the directory structure of a project. Returns a tree-like structure of files and folders."
      [ mkProperty "path" "string" "The absolute path to the project directory" None;
        mkProperty "maxDepth" "number" "Maximum depth to traverse (default: 3)"
                   (Some 3%Z) ]
      ["path"];
    mkTool "read_file"
      "Read the contents of a file"
      [ mkProperty "path" "string" "The absolute path to the file to read" None ]
      ["path"];
    mkTool "analyze_project"
      ("Analyze a project directory and return structured data about the project along with a README template. " +++
       "Returns: (1) A template structure with recommended README sections (some required, some optional), " +++
       "and (2) Detailed project analysis including detected technologies, package.json data, directory structure, scripts, dependencies, and configuration files. " +++
       "The LLM should use this information to construct a comprehensive README following the template structure as a guide, " +++
       "adapting sections based on what's relevant for the specific project.")
      [ mkProperty "projectPath" "string"
                   "The absolute path to the project directory" None ]
      ["projectPath"];
    mkTool "generate_readme"
      ("Generate a well-formatted, visually appealing README.md file for a project. " +++
       "This tool analyzes the project directory and automatically creates a comprehensive README with: " +++
       "badges, emojis, proper sections (description, installation, usage, project structure, dependencies, etc.), " +++
       "code blocks, and professional formatting. The generated README is ready to use and follows best practices.")
      [ mkProperty "projectPath" "string"
                   "The absolute path to the project directory" None ]
      ["projectPath"] ].



Definition structureHeading : string :=
  "## ðŸ“ Project Structure" +++ Js.LF +++ Js.LF.


(** A file system whose entry names can be carried by the indented text:
    no line feed inside, no space in front, no [/] at the end. *)
Definition plain_entries (h : Host) : Prop :=
  forall dirPath entries entry,
    readdir h dirPath = Return entries ->
    In entry entries ->
    plainName false (d_name entry) = true.

(** One bullet of a list section. *)
Definition bullet (item : string) : string := "- " +++ item.

(** ** A sample host *)

Definition DQ : string := String "034"%char "".

Definition quoted (s : string) : string := DQ +++ s +++ DQ.

Definition samplePackageJson : string :=
  "{" +++ quoted "name" +++ ":" +++ quoted "foo" +++ "," +++
  quoted "version" +++ ":" +++ quoted "1.0.0" +++ "," +++
  quoted "license" +++ ":" +++ quoted "MIT" +++ "," +++
  quoted "scripts" +++ ":{" +++ quoted "test" +++ ":" +++ quoted "jest" +++ "}," +++
  quoted "dependencies" +++ ":{" +++ quoted "left-pad" +++ ":" +++
  quoted "^1.0.0" +++ "}}".

Definition noEntry (syscall path : string) : Js.Error :=
  Js.newError ("ENOENT: no such file or directory, " +++ syscall +++ " '" +++
               path +++ "'").

Definition accessDenied (syscall path : string) : Js.Error :=
  Js.newError ("EACCES: permission denied, " +++ syscall +++ " '" +++
               path +++ "'").

Definition file (name : string) : Dirent := mkDirent name false.
Definition dir (name : string) : Dirent := mkDirent name true.

(** Five projects: [/p] (a Node.js project four levels deep), [/py] (two
    Python markers, no manifest), [/m] (a manifest that does not parse),
    [/locked] (a sub-directory that cannot be listed) and [/empty]. *)
Definition sampleReaddir (path : string) : outcome (list Dirent) :=
  if String.eqb path "/p" then
    Return [file "package.json"; dir "node_modules"; dir "src"; file "README.md";
            dir ".git"; file "rebuild.sh"]
  else if String.eqb path "/p/src" then
    Return [file "index.ts"; dir "lib"; dir "distribution"]
  else if String.eqb path "/p/src/lib" then
    Return [dir "deep"; file "util.ts"]
  else if String.eqb path "/p/src/lib/deep" then
    Return [file "x.ts"; dir "deeper"]
  else if String.eqb path "/p/src/lib/deep/deeper" then
    Return [file "y.ts"]
  else if String.eqb path "/p/node_modules" then
    Return [dir "left-pad"]
  else if String.eqb path "/p/node_modules/left-pad" then
    Return [file "index.js"]
  else if String.eqb path "/p/.git" then
    Return [file "HEAD"]
  else if String.eqb path "/p/src/distribution" then
    Return [file "out.js"]
  else if String.eqb path "/py" then
    Return [file "requirements.txt"; file "setup.py"]
  else if String.eqb path "/m" then
    Return [file "package.json"]
  else if String.eqb path "/locked" then
    Return [file "a.txt"; dir "secret"; file "b.txt"]
  else if String.eqb path "/locked/secret" then
    Throw (accessDenied "scandir" path)
  else if String.eqb path "/empty" then
    Return []
  else Throw (noEntry "scandir" path).

Definition sampleReadFile (path : string) : outcome string :=
  if String.eqb path "/p/package.json" then Return samplePackageJson
  else if String.eqb path "/m/package.json" then Return "{"
  else Throw (noEntry "open" path).

Definition sampleParse (content : string) : outcome Js.Value :=
  if String.eqb content samplePackageJson then
    Return (Js.Object
              [ ("name", Js.Str "foo");
                ("version", Js.Str "1.0.0");
                ("license", Js.Str "MIT");
                ("scripts", Js.Object [("test", Js.Str "jest")]);
                ("dependencies", Js.Object [("left-pad", Js.Str "^1.0.0")]) ])
  else Throw (Js.mkError "SyntaxError" "Unexpected end of JSON input").

(** [path.join] and [path.parse(p).base] on the paths of the sample. *)
Definition sampleJoin (a b : string) : string := a +++ "/" +++ b.

Fixpoint lastSegment (p segment : string) : string :=
  match p with
  | EmptyString => segment
  | String c rest =>
      if Ascii.eqb c "/"%char then lastSegment rest ""
      else lastSegment rest (segment +++ String c "")
  end.

Definition sampleBase (p : string) : string := lastSegment p "".

Definition sampleHost : Host :=
  mkHost sampleReaddir sampleReadFile sampleJoin sampleBase sampleParse
         (fun _ => "<structure>") (fun _ => "<analysis>") (fun _ => "<value>")
         (fun _ => "<string>").


(** Two trees the renderer cannot tell apart: a file whose name holds a
    line feed followed by two spaces, and two files. *)
Definition twoLineName : DirectoryNode :=
  DirNode "r" [FileNode ("a" +++ Js.LF +++ "  b") "/r/a"].

Definition twoFiles : DirectoryNode :=
  DirNode "r" [FileNode "a" "/r/a"; FileNode "b" "/r/b"].

(** The text of a line before its line feed. *)
Definition lineText (l : Line) : string :=
  Js.repeat "  " (l_depth l) +++ l_name l +++ (if l_isDir l then "/" else "").

Definition plainLine (l : Line) : bool := plainName (l_isDir l) (l_name l).


(** Case analysis on the path a sample listing is asked for. *)
Ltac listed_entries H :=
  repeat
    match type of H with
    | context [String.eqb ?d ?s] =>
        destruct (String.eqb_spec d s) as [-> | _]
    end.

(** * Properties *)

(** ** Strings *)

Lemma append_nil_r (s : string) : s +++ "" = s.
Proof. induction s as [|c s IH]; simpl; [reflexivity | now rewrite IH]. Qed.

Lemma append_assoc (a b c : string) : (a +++ b) +++ c = a +++ b +++ c.
Proof. induction a as [|x a IH]; simpl; [reflexivity | now rewrite IH]. Qed.

(** Appending to an accumulator, as [result += ...] in a loop does, is
    concatenation. *)
Lemma fold_left_append {A : Type} (f : A -> string) (l : list A) (acc : string) :
  fold_left (fun result x => result +++ f x) l acc =
  acc +++ String.concat "" (map f l).
Proof.
  revert acc; induction l as [|x l IH]; intros acc; simpl.
  - now rewrite append_nil_r.
  - rewrite IH, append_assoc. f_equal.
    destruct l as [|y l]; simpl; [now rewrite append_nil_r | reflexivity].
Qed.

Lemma concat_nosep_cons (s : string) (l : list string) :
  String.concat "" (s :: l) = s +++ String.concat "" l.
Proof. destruct l; simpl; [now rewrite append_nil_r | reflexivity]. Qed.

Lemma concat_nosep_app (l1 l2 : list string) :
  String.concat "" (l1 ++ l2) = String.concat "" l1 +++ String.concat "" l2.
Proof.
  induction l1 as [|s l1 IH]; [reflexivity|].
  change ((s :: l1) ++ l2) with (s :: (l1 ++ l2)).
  now rewrite !concat_nosep_cons, IH, append_assoc.
Qed.

Lemma prefix_spec (p s : string) :
  String.prefix p s = true <-> exists b, s = p +++ b.
Proof.
  revert s; induction p as [|c p IH]; intros s.
  - split; [intros _; now exists s | intros _; now destruct s].
  - destruct s as [|c' s].
    + split; [discriminate | intros [b Hb]; discriminate].
    + simpl. destruct (Ascii.ascii_dec c c') as [-> | Hne].
      * rewrite IH. split; intros [b Hb]; exists b; congruence.
      * split; [discriminate | intros [b Hb]; congruence].
Qed.

(** [Js.includes] is the substring test: case-sensitive, position free. *)
Lemma includes_spec (s pattern : string) :
  Js.includes s pattern = true <-> exists a b, s = a +++ pattern +++ b.
Proof.
  induction s as [|c s IH].
  - change (Js.includes "" pattern) with (String.prefix pattern "" || false).
    rewrite orb_false_r, prefix_spec. split.
    + intros [b Hb]. now exists "", b.
    + intros [a [b Hab]]. destruct a; [now exists b | discriminate].
  - change (Js.includes (String c s) pattern)
      with (String.prefix pattern (String c s) || Js.includes s pattern).
    rewrite orb_true_iff, prefix_spec, IH. split.
    + intros [[b Hb] | [a [b Hab]]].
      * now exists "", b.
      * exists (String c a), b. simpl. now rewrite Hab.
    + intros [a [b Hab]]. destruct a as [|c' a].
      * left. now exists b.
      * right. exists a, b. simpl in Hab. congruence.
Qed.

Lemma arr_includes_In (arr : list string) (x : string) :
  Js.arr_includes arr x = true <-> In x arr.
Proof.
  unfold Js.arr_includes. rewrite existsb_exists. split.
  - intros [y [Hy Heq]]. apply String.eqb_eq in Heq. now subst.
  - intros Hx. exists x. split; [assumption | apply String.eqb_refl].
Qed.

(** ** Induction on trees *)

Lemma DirectoryNode_induction (P : DirectoryNode -> Prop) :
  (forall name path, P (FileNode name path)) ->
  (forall name children, Forall P children -> P (DirNode name children)) ->
  forall node, P node.
Proof.
  intros Hfile Hdir.
  fix IH 1. intros [name path | name children].
  - apply Hfile.
  - apply Hdir. induction children as [|c cs IHcs]; constructor.
    + apply IH.
    + apply IHcs.
Qed.

(** ** The tree renderer *)

Lemma repeat_two_spaces (depth : nat) :
  Js.repeat "  " depth = Js.repeat " " (2 * depth).
Proof.
  induction depth as [|d IH]; [reflexivity|].
  replace (2 * S d) with (S (S (2 * d))) by lia.
  simpl in *. now rewrite IH.
Qed.

Lemma concat_flat_map {A : Type} (g : A -> list Line) (l : list A) :
  String.concat "" (map renderLine (flat_map g l)) =
  String.concat "" (map (fun x => String.concat "" (map renderLine (g x))) l).
Proof.
  induction l as [|x l IH]; [reflexivity|].
  change (flat_map g (x :: l)) with (g x ++ flat_map g l).
  rewrite map_app, concat_nosep_app, IH.
  change (map ?f (x :: l)) with (f x :: map f l).
  now rewrite concat_nosep_cons.
Qed.

Lemma format_children (children : list DirectoryNode) (depth : nat) (line : string) :
  fold_left
    (fun result child => result +++ formatDirectoryStructure child (depth + 1))
    children line =
  line +++
  String.concat "" (map (fun c => formatDirectoryStructure c (S depth)) children).
Proof.
  rewrite (fold_left_append (fun c => formatDirectoryStructure c (depth + 1))).
  now rewrite Nat.add_1_r.
Qed.

Lemma format_lines (node : DirectoryNode) :
  forall depth,
    formatDirectoryStructure node depth =
    String.concat "" (map renderLine (preorder node depth)).
Proof.
  induction node as [name path | name children IH] using DirectoryNode_induction;
    intros depth.
  - reflexivity.
  - cbn [formatDirectoryStructure preorder].
    rewrite format_children.
    change (map renderLine (?l :: ?ls)) with (renderLine l :: map renderLine ls).
    rewrite concat_nosep_cons, concat_flat_map.
    unfold renderLine at 1. cbn [l_depth l_name l_isDir].
    change ("" +++ ?x) with x. rewrite !append_assoc.
    do 4 f_equal.
    induction IH as [|c cs Hc _ IHcs]; [reflexivity|].
    cbn [map]. rewrite !concat_nosep_cons. now rewrite Hc, IHcs.
Qed.

(** C8.  [formatDirectoryStructure] writes the nodes in pre-order, depth
    first, one line each: two spaces per nesting level, the name, [/] after
    a directory name, and a line feed; a file line has nothing but the line
    feed after the name. *)
Theorem formatDirectoryStructure_preorder (node : DirectoryNode) (depth : nat) :
  formatDirectoryStructure node depth =
    String.concat "" (map renderLine (preorder node depth))
  /\ (forall name path,
         formatDirectoryStructure (FileNode name path) depth =
         Js.repeat " " (2 * depth) +++ name +++ Js.LF)
  /\ (forall name children,
         formatDirectoryStructure (DirNode name children) depth =
         Js.repeat " " (2 * depth) +++ name +++ "/" +++ Js.LF +++
         String.concat ""
           (map (fun child => formatDirectoryStructure child (S depth)) children)).
Proof.
  split; [apply format_lines | split].
  - intros name path. cbn [formatDirectoryStructure].
    now rewrite repeat_two_spaces.
  - intros name children. cbn [formatDirectoryStructure].
    rewrite format_children, repeat_two_spaces.
    change ("" +++ ?x) with x. now rewrite !append_assoc.
Qed.

(** ** Reading a rendered tree back *)

Lemma noLineFeed_append (a b : string) :
  noLineFeed (a +++ b) = noLineFeed a && noLineFeed b.
Proof.
  induction a as [|c a IH]; simpl; [reflexivity|].
  now rewrite IH, andb_assoc.
Qed.

Lemma noLineFeed_indent (depth : nat) : noLineFeed (Js.repeat "  " depth) = true.
Proof. induction depth as [|d IH]; simpl; [reflexivity | exact IH]. Qed.

(** A line without a line feed inside is what [splitLines] cuts off. *)
Lemma splitLines_line (line rest : string) :
  noLineFeed line = true ->
  splitLines (line +++ Js.LF +++ rest) = line :: splitLines rest.
Proof.
  induction line as [|c line IH]; intros Hline.
  - reflexivity.
  - simpl in Hline. apply andb_true_iff in Hline as [Hc Hline].
    apply negb_true_iff in Hc.
    cbn [String.append splitLines]. rewrite Hc, (IH Hline). reflexivity.
Qed.

Lemma parseIndent_indent (depth : nat) (rest : string) :
  noLeadingSpace rest = true ->
  parseIndent (Js.repeat "  " depth +++ rest) = (depth, rest).
Proof.
  intros Hrest. induction depth as [|d IH].
  - cbn [Js.repeat String.append].
    destruct rest as [|c1 [|c2 rest]]; try reflexivity.
    simpl in Hrest. apply negb_true_iff in Hrest.
    cbn [parseIndent]. now rewrite Hrest.
  - cbn [Js.repeat String.append parseIndent Ascii.eqb Bool.eqb andb].
    now rewrite IH.
Qed.

Lemma endsWithSlash_slash (s : string) : endsWithSlash (s +++ "/") = true.
Proof.
  induction s as [|c s IH]; [reflexivity|].
  cbn [String.append endsWithSlash].
  destruct (s +++ "/") eqn:E; [destruct s; discriminate | exact IH].
Qed.

Lemma dropLast_slash (s : string) : dropLast (s +++ "/") = s.
Proof.
  induction s as [|c s IH]; [reflexivity|].
  cbn [String.append dropLast].
  destruct (s +++ "/") eqn:E; [destruct s; discriminate | now rewrite IH].
Qed.

Lemma noLeadingSpace_slash (s : string) :
  noLeadingSpace s = true -> noLeadingSpace (s +++ "/") = true.
Proof. destruct s; [reflexivity | exact (fun H => H)]. Qed.

Lemma renderLine_lineText (l : Line) : renderLine l = lineText l +++ Js.LF +++ "".
Proof.
  unfold renderLine, lineText. now rewrite !append_assoc, append_nil_r.
Qed.

Lemma parseLine_lineText (l : Line) :
  plainLine l = true -> parseLine (lineText l) = l.
Proof.
  destruct l as [depth isDir name]. unfold plainLine, plainName, lineText, parseLine.
  cbn [l_depth l_isDir l_name]. intros H.
  apply andb_true_iff in H as [H Hslash]. apply andb_true_iff in H as [_ Hspace].
  destruct isDir.
  - rewrite parseIndent_indent by now apply noLeadingSpace_slash.
    now rewrite endsWithSlash_slash, dropLast_slash.
  - rewrite append_nil_r, parseIndent_indent by assumption.
    simpl in Hslash. apply negb_true_iff in Hslash. now rewrite Hslash.
Qed.

Lemma noLineFeed_lineText (l : Line) :
  plainLine l = true -> noLineFeed (lineText l) = true.
Proof.
  destruct l as [depth isDir name]. unfold plainLine, plainName, lineText.
  cbn [l_depth l_isDir l_name]. intros H.
  apply andb_true_iff in H as [H _]. apply andb_true_iff in H as [Hlf _].
  rewrite !noLineFeed_append, noLineFeed_indent, Hlf. now destruct isDir.
Qed.

Lemma parseStructure_lines (ls : list Line) :
  forallb plainLine ls = true ->
  parseStructure (String.concat "" (map renderLine ls)) = ls.
Proof.
  unfold parseStructure. induction ls as [|l ls IH]; intros Hplain.
  - reflexivity.
  - cbn [forallb] in Hplain. apply andb_true_iff in Hplain as [Hl Hls].
    cbn [map]. rewrite concat_nosep_cons, renderLine_lineText.
    rewrite !append_assoc. cbn [String.append].
    rewrite splitLines_line by now apply noLineFeed_lineText.
    cbn [map]. now rewrite parseLine_lineText, IH.
Qed.

Lemma forallb_flat_map {A B : Type} (p : B -> bool) (g : A -> list B) (l : list A) :
  forallb p (flat_map g l) = forallb (fun x => forallb p (g x)) l.
Proof.
  induction l as [|x l IH]; [reflexivity|].
  cbn [flat_map forallb]. now rewrite forallb_app, IH.
Qed.

Lemma plainTree_preorder (node : DirectoryNode) :
  forall depth, plainTree node = true -> forallb plainLine (preorder node depth) = true.
Proof.
  induction node as [name path | name children IH] using DirectoryNode_induction;
    intros depth Hplain.
  - cbn [plainTree] in Hplain. cbn [preorder forallb].
    unfold plainLine. cbn [l_isDir l_name]. now rewrite Hplain.
  - cbn [plainTree] in Hplain. apply andb_true_iff in Hplain as [Hname Hch].
    cbn [preorder forallb]. unfold plainLine at 1. cbn [l_isDir l_name].
    rewrite Hname, forallb_flat_map. cbn [andb].
    rewrite forallb_forall in Hch |- *. rewrite Forall_forall in IH.
    intros c Hc. apply IH; auto.
Qed.

(** C9 (amended).  For a tree whose names hold no line feed, start with no
    space and, for files, do not end in [/], reading the rendered text back
    (two spaces per level, [/] marking a directory) recovers the nodes in
    pre-order with the same names and the same nesting depths. *)
Theorem render_parse_roundtrip (node : DirectoryNode) (depth : nat) :
  plainTree node = true ->
  parseStructure (formatDirectoryStructure node depth) = preorder node depth
  /\ names_and_depths (parseStructure (formatDirectoryStructure node depth)) =
     names_and_depths (preorder node depth).
Proof.
  intros Hplain.
  assert (parseStructure (formatDirectoryStructure node depth) = preorder node depth)
    as Heq.
  { rewrite format_lines. apply parseStructure_lines.
    now apply plainTree_preorder. }
  split; [exact Heq | now rewrite Heq].
Qed.

(** C9 (amended) on a tree of two files. *)
Lemma render_parse_roundtrip_witness :
  plainTree twoFiles = true
  /\ parseStructure (formatDirectoryStructure twoFiles 0) =
     [mkLine 0 true "r"; mkLine 1 false "a"; mkLine 1 false "b"].
Proof.
  split; [reflexivity|].
  exact (proj1 (render_parse_roundtrip twoFiles 0 eq_refl)).
Defined.

(** C9 as stated fails: a file name holding a line feed is rendered as two
    lines, the text is that of another tree, and what is read back has
    other names than the tree that was rendered. *)
Lemma render_parse_counterexample :
  formatDirectoryStructure twoLineName 0 = formatDirectoryStructure twoFiles 0
  /\ names_and_depths (preorder twoLineName 0) =
     [("r", 0); ("a" +++ Js.LF +++ "  b", 1)]
  /\ names_and_depths (parseStructure (formatDirectoryStructure twoLineName 0)) =
     [("r", 0); ("a", 1); ("b", 1)]
  /\ names_and_depths (parseStructure (formatDirectoryStructure twoLineName 0)) <>
     names_and_depths (preorder twoLineName 0).
Proof.
  repeat split; try reflexivity. intros H. discriminate H.
Qed.

(** ** The directory scanner *)

(** The scanner satisfies the recursive equation that is the source text of
    lines 62-104: the bound on nested calls never runs out. *)
Lemma getDirectoryStructure_eq (h : Host) dirPath maxDepth currentDepth ignorePatterns :
  getDirectoryStructure h dirPath maxDepth currentDepth ignorePatterns =
  if (currentDepth >=? maxDepth)%Z then Return None
  else
    try_catch
      (entries <- readdir h dirPath ;;
       children <-
         scanEntries h
           (fun fullPath =>
              getDirectoryStructure h fullPath maxDepth (currentDepth + 1)%Z
                                    ignorePatterns)
           dirPath ignorePatterns entries [] ;;
       Return (Some (DirNode (Js.or_else (path_base h dirPath) dirPath) children)))
      (fun error => Throw (failedToRead error)).
Proof.
  unfold getDirectoryStructure.
  destruct (Z.geb_spec currentDepth maxDepth) as [Hge | Hlt].
  - destruct (Z.to_nat (maxDepth - currentDepth)); simpl;
      destruct (Z.geb_spec currentDepth maxDepth); try lia; reflexivity.
  - replace (Z.to_nat (maxDepth - currentDepth))
      with (S (Z.to_nat (maxDepth - (currentDepth + 1)%Z))) by lia.
    simpl. destruct (Z.geb_spec currentDepth maxDepth); try lia.
    reflexivity.
Qed.

Lemma visited_eq (h : Host) dirPath maxDepth currentDepth ignorePatterns :
  visited h dirPath maxDepth currentDepth ignorePatterns =
  if (currentDepth >=? maxDepth)%Z then []
  else
    dirPath ::
    match readdir h dirPath with
    | Return entries =>
        visitedEntries h
          (fun fullPath =>
             getDirectoryStructure h fullPath maxDepth (currentDepth + 1)%Z
                                   ignorePatterns)
          (fun fullPath =>
             visited h fullPath maxDepth (currentDepth + 1)%Z ignorePatterns)
          dirPath ignorePatterns entries
    | Throw _ => []
    end.
Proof.
  unfold visited, getDirectoryStructure.
  destruct (Z.geb_spec currentDepth maxDepth) as [Hge | Hlt].
  - destruct (Z.to_nat (maxDepth - currentDepth)); simpl;
      destruct (Z.geb_spec currentDepth maxDepth); try lia; reflexivity.
  - replace (Z.to_nat (maxDepth - currentDepth))
      with (S (Z.to_nat (maxDepth - (currentDepth + 1)%Z))) by lia.
    simpl. destruct (Z.geb_spec currentDepth maxDepth); try lia.
    reflexivity.
Qed.

(** The loop appends to [children], entry by entry and in the order of the
    listing, what each entry contributes. *)
Lemma scanEntries_flat_map (h : Host) recurse dirPath ignorePatterns entries :
  forall children result,
    scanEntries h recurse dirPath ignorePatterns entries children = Return result ->
    result =
    children ++ flat_map (entryNodes h recurse dirPath ignorePatterns) entries.
Proof.
  induction entries as [|entry rest IH]; intros children result Hscan.
  - simpl in Hscan. injection Hscan as <-. now rewrite app_nil_r.
  - cbn [scanEntries flat_map] in *. unfold entryNodes at 1.
    destruct (ignored ignorePatterns entry).
    + now apply IH.
    + destruct (d_isDirectory entry).
      * destruct (recurse (path_join h dirPath (d_name entry))) as [[sub|]|e];
          cbn [bind] in Hscan.
        -- apply IH in Hscan. now rewrite <- app_assoc in Hscan.
        -- now apply IH.
        -- discriminate.
      * apply IH in Hscan. now rewrite <- app_assoc in Hscan.
Qed.

(** A scan that returns a node listed the directory and built the node from
    the listing. *)
Lemma getDirectoryStructure_Some (h : Host) dirPath maxDepth currentDepth
      ignorePatterns node :
  getDirectoryStructure h dirPath maxDepth currentDepth ignorePatterns =
    Return (Some node) ->
  (currentDepth < maxDepth)%Z /\
  exists entries,
    readdir h dirPath = Return entries /\
    node =
    DirNode (Js.or_else (path_base h dirPath) dirPath)
      (flat_map
         (entryNodes h
            (fun fullPath =>
               getDirectoryStructure h fullPath maxDepth (currentDepth + 1)%Z
                                     ignorePatterns)
            dirPath ignorePatterns)
         entries).
Proof.
  rewrite getDirectoryStructure_eq.
  destruct (Z.geb_spec currentDepth maxDepth) as [Hge | Hlt]; [discriminate|].
  intros Hscan. split; [assumption|].
  destruct (readdir h dirPath) as [entries | e]; [|discriminate].
  exists entries. split; [reflexivity|].
  cbn [bind try_catch] in Hscan.
  destruct (scanEntries h _ dirPath ignorePatterns entries []) as [children | e]
    eqn:Hentries; cbn [bind try_catch] in Hscan; [|discriminate].
  apply scanEntries_flat_map in Hentries. cbn [app] in Hentries.
  injection Hscan as <-. now subst children.
Qed.

Lemma In_entryNodes (h : Host) recurse dirPath ignorePatterns entry node :
  In node (entryNodes h recurse dirPath ignorePatterns entry) ->
  ignored ignorePatterns entry = false /\
  ((d_isDirectory entry = false /\
    node = FileNode (d_name entry) (path_join h dirPath (d_name entry))) \/
   (d_isDirectory entry = true /\
    recurse (path_join h dirPath (d_name entry)) = Return (Some node))).
Proof.
  unfold entryNodes. destruct (ignored ignorePatterns entry); [intros []|].
  destruct (d_isDirectory entry).
  - destruct (recurse _) as [[sub|]|e].
    + intros [<- | []]. auto.
    + intros [].
    + intros [].
  - intros [<- | []]. auto.
Qed.

Lemma tree_depth_children (name : string) (children : list DirectoryNode) (k : nat) :
  (forall child, In child children -> S (tree_depth child) <= k) ->
  tree_depth (DirNode name children) <= k.
Proof.
  cbn [tree_depth]. induction children as [|c cs IH]; intros Hk; cbn [fold_right].
  - lia.
  - apply Nat.max_lub.
    + apply Hk. now left.
    + apply IH. intros child Hin. apply Hk. now right.
Qed.

(** Induction on the number of levels left, [maxDepth - currentDepth]. *)
Lemma depth_induction (maxDepth : Z) (P : Z -> Prop) :
  (forall currentDepth,
      ((currentDepth < maxDepth)%Z -> P (currentDepth + 1)%Z) -> P currentDepth) ->
  forall currentDepth, P currentDepth.
Proof.
  intros Hstep currentDepth.
  remember (Z.to_nat (maxDepth - currentDepth)) as n eqn:Hn.
  revert currentDepth Hn. induction n as [|n IH]; intros currentDepth Hn.
  - apply Hstep. lia.
  - apply Hstep. intros Hlt. apply IH. lia.
Qed.

Lemma tree_depth_bound (h : Host) maxDepth ignorePatterns :
  forall currentDepth dirPath node,
    getDirectoryStructure h dirPath maxDepth currentDepth ignorePatterns =
      Return (Some node) ->
    (Z.of_nat (tree_depth node) <= maxDepth - currentDepth)%Z.
Proof.
  intros currentDepth.
  pattern currentDepth. apply (depth_induction maxDepth). clear currentDepth.
  intros currentDepth IH dirPath node Hscan.
  apply getDirectoryStructure_Some in Hscan as [Hlt [entries [_ ->]]].
  specialize (IH Hlt).
  enough (tree_depth
            (DirNode (Js.or_else (path_base h dirPath) dirPath)
               (flat_map
                  (entryNodes h
                     (fun fullPath =>
                        getDirectoryStructure h fullPath maxDepth
                          (currentDepth + 1)%Z ignorePatterns)
                     dirPath ignorePatterns) entries))
          <= Z.to_nat (maxDepth - currentDepth)) by lia.
  apply tree_depth_children. intros child Hchild.
  apply in_flat_map in Hchild as [entry [_ Hchild]].
  apply In_entryNodes in Hchild as [_ [[_ ->] | [_ Hsub]]].
  - cbn [tree_depth]. lia.
  - apply IH in Hsub. lia.
Qed.

(** C1 (amended).  With [maxDepth = 0] the scanner returns no node
    ([null]) for every path, whether or not it can be listed, and lists no
    directory. *)
Theorem scan_maxDepth_zero (h : Host) (dirPath : string)
        (ignorePatterns : list string) :
  getDirectoryStructure h dirPath 0 0 ignorePatterns = Return None
  /\ visited h dirPath 0 0 ignorePatterns = [].
Proof.
  split.
  - now rewrite getDirectoryStructure_eq.
  - now rewrite visited_eq.
Qed.

(** C1 as stated fails: [/empty] can be listed, and the scan with
    [maxDepth = 0] returns [null], not a directory node without children. *)
Lemma scan_maxDepth_zero_counterexample :
  readdir sampleHost "/empty" = Return []
  /\ getDirectoryStructure sampleHost "/empty" 0 0 defaultIgnorePatterns =
     Return None
  /\ forall name,
       getDirectoryStructure sampleHost "/empty" 0 0 defaultIgnorePatterns <>
       Return (Some (DirNode name [])).
Proof.
  repeat split. intros name H. discriminate H.
Qed.

(** The directory node without sub-directories is what [maxDepth = 1]
    gives: the files of the listing that are not ignored, in its order. *)
Lemma scan_maxDepth_one (h : Host) (dirPath : string)
      (ignorePatterns : list string) (entries : list Dirent) :
  readdir h dirPath = Return entries ->
  getDirectoryStructure h dirPath 1 0 ignorePatterns =
  Return
    (Some
       (DirNode (Js.or_else (path_base h dirPath) dirPath)
          (map (fun entry =>
                  FileNode (d_name entry) (path_join h dirPath (d_name entry)))
               (filter (fun entry =>
                          negb (ignored ignorePatterns entry) &&
                          negb (d_isDirectory entry))
                       entries)))).
Proof.
  intros Hlist. rewrite getDirectoryStructure_eq. cbn [Z.geb Z.compare].
  rewrite Hlist. cbn [bind].
  enough (forall children,
             scanEntries h
               (fun fullPath =>
                  getDirectoryStructure h fullPath 1 (0 + 1) ignorePatterns)
               dirPath ignorePatterns entries children =
             Return
               (children ++
                map (fun entry =>
                       FileNode (d_name entry)
                                (path_join h dirPath (d_name entry)))
                    (filter (fun entry =>
                               negb (ignored ignorePatterns entry) &&
                               negb (d_isDirectory entry))
                            entries))) as Hloop.
  { now rewrite Hloop. }
  clear Hlist. induction entries as [|entry rest IH]; intros children.
  - cbn. now rewrite app_nil_r.
  - cbn [scanEntries filter].
    destruct (ignored ignorePatterns entry); cbn [negb andb].
    + apply IH.
    + destruct (d_isDirectory entry); cbn [negb].
      * rewrite getDirectoryStructure_eq. cbn [Z.add Z.geb Z.compare Pos.compare
                                                Pos.add Pos.compare_cont bind].
        apply IH.
      * rewrite IH. cbn [map]. now rewrite <- app_assoc.
Qed.

(** The scanner at a bound that is any finite number.  For the integer
    [currentDepth], [currentDepth >= maxDepth] says as much as
    [currentDepth >= ceil(maxDepth)]. *)
Lemma number_guard (maxDepth : Q) (currentDepth : Z) :
  Qle_bool maxDepth (inject_Z currentDepth) =
  (currentDepth >=? Qceiling maxDepth)%Z.
Proof.
  destruct (Z.geb_spec currentDepth (Qceiling maxDepth)) as [Hge | Hlt].
  - apply Qle_bool_iff.
    apply Qle_trans with (inject_Z (Qceiling maxDepth));
      [apply Qle_ceiling | now rewrite <- Zle_Qle].
  - destruct (Qle_bool maxDepth (inject_Z currentDepth)) eqn:Hle; [|reflexivity].
    apply Qle_bool_iff, Qceiling_resp_le in Hle. rewrite Qceiling_Z in Hle. lia.
Qed.

Lemma scanEntries_ext (h : Host) recurse1 recurse2 dirPath ignorePatterns entries :
  (forall path, recurse1 path = recurse2 path) ->
  forall children,
    scanEntries h recurse1 dirPath ignorePatterns entries children =
    scanEntries h recurse2 dirPath ignorePatterns entries children.
Proof.
  intros Hext. induction entries as [|entry rest IH]; intros children;
    [reflexivity|].
  cbn [scanEntries]. rewrite Hext.
  destruct (ignored ignorePatterns entry); [apply IH|].
  destruct (d_isDirectory entry); [|apply IH].
  destruct (recurse2 (path_join h dirPath (d_name entry))) as [[sub|] | e];
    cbn [bind]; [apply IH | apply IH | reflexivity].
Qed.

Lemma number_rec_ceiling (h : Host) (maxDepth : Q) ignorePatterns :
  forall fuel dirPath currentDepth,
    getDirectoryStructure_number_rec h fuel dirPath maxDepth currentDepth
                                     ignorePatterns =
    getDirectoryStructure_rec h fuel dirPath (Qceiling maxDepth) currentDepth
                              ignorePatterns.
Proof.
  induction fuel as [|fuel IH]; intros dirPath currentDepth;
    cbn [getDirectoryStructure_number_rec getDirectoryStructure_rec];
    rewrite number_guard; [reflexivity|].
  destruct (currentDepth >=? Qceiling maxDepth)%Z; [reflexivity|].
  destruct (readdir h dirPath) as [entries | e]; [|reflexivity].
  cbn [bind].
  now rewrite (scanEntries_ext h _ _ dirPath ignorePatterns entries
                 (fun path => IH path (currentDepth + 1)%Z)).
Qed.

(** With a fractional bound the scan is the scan at the next integer. *)
Lemma getDirectoryStructure_number_ceiling (h : Host) dirPath (maxDepth : Q)
      currentDepth ignorePatterns :
  getDirectoryStructure_number h dirPath maxDepth currentDepth ignorePatterns =
  getDirectoryStructure h dirPath (Qceiling maxDepth) currentDepth ignorePatterns.
Proof. apply number_rec_ceiling. Qed.

(** On an integer bound the two embeddings of the scanner agree. *)
Lemma getDirectoryStructure_number_integer (h : Host) dirPath (maxDepth : Z)
      currentDepth ignorePatterns :
  getDirectoryStructure_number h dirPath (inject_Z maxDepth) currentDepth
                               ignorePatterns =
  getDirectoryStructure h dirPath maxDepth currentDepth ignorePatterns.
Proof. now rewrite getDirectoryStructure_number_ceiling, Qceiling_Z. Qed.

(** The recursive equation of lines 62-104 at a bound that is a number. *)
Lemma getDirectoryStructure_number_eq (h : Host) dirPath (maxDepth : Q)
      currentDepth ignorePatterns :
  getDirectoryStructure_number h dirPath maxDepth currentDepth ignorePatterns =
  if Qle_bool maxDepth (inject_Z currentDepth) then Return None
  else
    try_catch
      (entries <- readdir h dirPath ;;
       children <-
         scanEntries h
           (fun fullPath =>
              getDirectoryStructure_number h fullPath maxDepth
                                           (currentDepth + 1)%Z ignorePatterns)
           dirPath ignorePatterns entries [] ;;
       Return (Some (DirNode (Js.or_else (path_base h dirPath) dirPath) children)))
      (fun error => Throw (failedToRead error)).
Proof.
  rewrite getDirectoryStructure_number_ceiling, getDirectoryStructure_eq,
    number_guard.
  destruct (currentDepth >=? Qceiling maxDepth)%Z; [reflexivity|].
  destruct (readdir h dirPath) as [entries | e]; [|reflexivity].
  cbn [bind].
  now rewrite (scanEntries_ext h _ _ dirPath ignorePatterns entries
                 (fun path =>
                    getDirectoryStructure_number_ceiling h path maxDepth
                      (currentDepth + 1)%Z ignorePatterns)).
Qed.

Lemma entryNodes_ext (h : Host) recurse1 recurse2 dirPath ignorePatterns entry :
  (forall path, recurse1 path = recurse2 path) ->
  entryNodes h recurse1 dirPath ignorePatterns entry =
  entryNodes h recurse2 dirPath ignorePatterns entry.
Proof. intros Hext. unfold entryNodes. now rewrite Hext. Qed.

(** C7 (amended).  [maxDepth] being any finite number: once
    [currentDepth >= maxDepth] the scanner returns no node.  A node it
    returns has nesting depth at most [ceil(maxDepth) - currentDepth], so
    the tree of a scan from depth 0 has depth at most [ceil(maxDepth)], and
    at most [maxDepth] when [maxDepth] is an integer; its children are what
    the entries of the listing contribute, in the order of the listing; and
    when the next level is at [maxDepth] or beyond, a directory entry
    contributes no child. *)
Theorem scan_depth_bound_number (h : Host) (dirPath : string) (maxDepth : Q)
        (currentDepth : Z) (ignorePatterns : list string) :
  let recurse :=
    fun fullPath =>
      getDirectoryStructure_number h fullPath maxDepth (currentDepth + 1)%Z
                                   ignorePatterns
  in
  ((maxDepth <= inject_Z currentDepth)%Q ->
   getDirectoryStructure_number h dirPath maxDepth currentDepth ignorePatterns =
     Return None)
  /\ forall node,
      getDirectoryStructure_number h dirPath maxDepth currentDepth ignorePatterns =
        Return (Some node) ->
      (Z.of_nat (tree_depth node) <= Qceiling maxDepth - currentDepth)%Z
      /\ (forall k : Z,
             (maxDepth == inject_Z k)%Q ->
             (Z.of_nat (tree_depth node) <= k - currentDepth)%Z)
      /\ exists entries,
          readdir h dirPath = Return entries
          /\ node_children node =
             flat_map (entryNodes h recurse dirPath ignorePatterns) entries
          /\ ((maxDepth <= inject_Z (currentDepth + 1))%Q ->
              (forall entry,
                  In entry entries -> d_isDirectory entry = true ->
                  entryNodes h recurse dirPath ignorePatterns entry = [])
              /\ (forall child,
                     In child (node_children node) -> is_directory child = false)).
Proof.
  intros recurse. split.
  - intros Hge. rewrite getDirectoryStructure_number_eq.
    now rewrite (proj2 (Qle_bool_iff _ _) Hge).
  - intros node Hscan. rewrite getDirectoryStructure_number_ceiling in Hscan.
    pose proof (tree_depth_bound h _ _ _ _ _ Hscan) as Hdepth.
    split; [exact Hdepth | split].
    + intros k Hk. rewrite (Qceiling_comp _ _ Hk), Qceiling_Z in Hdepth.
      exact Hdepth.
    + apply getDirectoryStructure_Some in Hscan as [Hlt [entries [Hlist ->]]].
      exists entries. split; [assumption|].
      assert (forall path,
                 recurse path =
                 getDirectoryStructure h path (Qceiling maxDepth)
                                       (currentDepth + 1)%Z ignorePatterns)
        as Hrecurse
          by (intros path; apply getDirectoryStructure_number_ceiling).
      cbn [node_children]. split.
      * apply flat_map_ext. intros entry. symmetry. now apply entryNodes_ext.
      * intros Hnext.
        assert (currentDepth + 1 >= Qceiling maxDepth)%Z as Hnext'.
        { apply Qceiling_resp_le in Hnext. rewrite Qceiling_Z in Hnext. lia. }
        split.
        -- intros entry _ Hdir. unfold entryNodes. rewrite Hdir, Hrecurse.
           rewrite getDirectoryStructure_eq.
           destruct (Z.geb_spec (currentDepth + 1) (Qceiling maxDepth)); [|lia].
           now destruct (ignored ignorePatterns entry).
        -- intros child Hchild.
           apply in_flat_map in Hchild as [entry [_ Hchild]].
           apply In_entryNodes in Hchild as [_ [[_ ->] | [_ Hsub]]];
             [reflexivity|].
           rewrite getDirectoryStructure_eq in Hsub.
           destruct (Z.geb_spec (currentDepth + 1) (Qceiling maxDepth));
             [discriminate | lia].
Qed.

(** C7 (amended) on the sample project [/p] at the bounds 3 and 2.5: the
    files of [/p/src/lib] sit at depth 3 and the directory [deep], at
    [currentDepth = 3], gives no node. *)
Lemma scan_depth_bound_number_witness :
  exists node,
    getDirectoryStructure_number sampleHost "/p" (inject_Z 3) 0
                                 defaultIgnorePatterns = Return (Some node)
    /\ tree_depth node = 3
    /\ (Z.of_nat (tree_depth node) <= 3 - 0)%Z
    /\ getDirectoryStructure_number sampleHost "/p/src/lib/deep" (5 # 2) 3
                                    defaultIgnorePatterns = Return None.
Proof.
  destruct (getDirectoryStructure_number sampleHost "/p" (inject_Z 3) 0
              defaultIgnorePatterns) as [[node|] | e] eqn:Hscan;
    try (vm_compute in Hscan; discriminate Hscan).
  exists node. split; [reflexivity|].
  destruct (proj2 (scan_depth_bound_number sampleHost "/p" (inject_Z 3) 0
                     defaultIgnorePatterns) node Hscan) as [_ [Hinteger _]].
  split; [vm_compute in Hscan; injection Hscan as <-; reflexivity|].
  split; [apply Hinteger; reflexivity|].
  apply (proj1 (scan_depth_bound_number sampleHost "/p/src/lib/deep" (5 # 2) 3
                  defaultIgnorePatterns)).
  apply Qle_bool_iff. reflexivity.
Defined.

(** C7 as stated fails at a bound that is not an integer: the scan of [/p]
    with [maxDepth = 2.5] returns a tree of nesting depth 3. *)
Lemma scan_depth_bound_counterexample :
  exists node,
    getDirectoryStructure_number sampleHost "/p" (5 # 2) 0 defaultIgnorePatterns =
      Return (Some node)
    /\ tree_depth node = 3
    /\ Qle_bool (inject_Z (Z.of_nat (tree_depth node))) (5 # 2) = false
    /\ (5 # 2 < inject_Z (Z.of_nat (tree_depth node)))%Q.
Proof.
  eexists. split; [vm_compute; reflexivity|].
  split; [reflexivity | split; reflexivity].
Qed.

(** ** Ignored entries *)

(** An entry is ignored exactly when its name holds one of the patterns as
    a substring. *)
Lemma ignored_spec (ignorePatterns : list string) (entry : Dirent) :
  ignored ignorePatterns entry = true <->
  exists pattern a b,
    In pattern ignorePatterns /\ d_name entry = a +++ pattern +++ b.
Proof.
  unfold ignored. rewrite existsb_exists. split.
  - intros [pattern [Hin Hinc]]. apply includes_spec in Hinc as [a [b Hab]].
    now exists pattern, a, b.
  - intros [pattern [a [b [Hin Hab]]]]. exists pattern. split; [assumption|].
    apply includes_spec. now exists a, b.
Qed.

Lemma In_visitedEntries (h : Host) recurse visit dirPath ignorePatterns entries p :
  In p (visitedEntries h recurse visit dirPath ignorePatterns entries) ->
  exists entry,
    In entry entries /\ ignored ignorePatterns entry = false /\
    d_isDirectory entry = true /\
    In p (visit (path_join h dirPath (d_name entry))).
Proof.
  induction entries as [|entry rest IH]; cbn [visitedEntries]; [intros []|].
  destruct (ignored ignorePatterns entry) eqn:Hign.
  - intros Hp. destruct (IH Hp) as [e [He Hrest]]. exists e. split; [now right | assumption].
  - destruct (d_isDirectory entry) eqn:Hdir.
    + intros Hp. apply in_app_or in Hp as [Hp | Hp].
      * exists entry. repeat split; auto. now left.
      * destruct (recurse _); [|destruct Hp].
        destruct (IH Hp) as [e [He Hrest]]. exists e.
        split; [now right | assumption].
    + intros Hp. destruct (IH Hp) as [e [He Hrest]]. exists e.
      split; [now right | assumption].
Qed.

(** Every directory the scan lists is reached through entries that are not
    ignored. *)
Lemma visited_reachable (h : Host) maxDepth ignorePatterns root :
  forall currentDepth dirPath p,
    reachable h ignorePatterns root dirPath ->
    In p (visited h dirPath maxDepth currentDepth ignorePatterns) ->
    reachable h ignorePatterns root p.
Proof.
  intros currentDepth.
  pattern currentDepth. apply (depth_induction maxDepth). clear currentDepth.
  intros currentDepth IH dirPath p Hreach Hp.
  rewrite visited_eq in Hp.
  destruct (Z.geb_spec currentDepth maxDepth) as [Hge | Hlt]; [destruct Hp|].
  destruct Hp as [<- | Hp]; [assumption|].
  destruct (readdir h dirPath) as [entries | e] eqn:Hlist; [|destruct Hp].
  apply In_visitedEntries in Hp as [entry [Hentry [Hign [Hdir Hp]]]].
  apply (IH Hlt (path_join h dirPath (d_name entry))); [|assumption].
  now apply (reach_entry h ignorePatterns root dirPath entries entry).
Qed.

(** Every node below the root of a returned tree stands for an entry that
    is not ignored, in a directory reached through such entries. *)
Lemma descendants_from_entries (h : Host) maxDepth ignorePatterns root :
  forall currentDepth dirPath node n,
    reachable h ignorePatterns root dirPath ->
    getDirectoryStructure h dirPath maxDepth currentDepth ignorePatterns =
      Return (Some node) ->
    In n (descendants node) ->
    node_from h ignorePatterns root n.
Proof.
  intros currentDepth.
  pattern currentDepth. apply (depth_induction maxDepth). clear currentDepth.
  intros currentDepth IH dirPath node n Hreach Hscan Hn.
  apply getDirectoryStructure_Some in Hscan as [Hlt [entries [Hlist ->]]].
  cbn [descendants] in Hn.
  apply in_flat_map in Hn as [child [Hchild Hn]].
  apply in_flat_map in Hchild as [entry [Hentry Hchild]].
  apply In_entryNodes in Hchild as [Hign [[Hfile ->] | [Hdir Hsub]]].
  - destruct Hn as [<- | []].
    exists dirPath, entries, entry. repeat split; assumption.
  - destruct Hn as [<- | Hn].
    + pose proof Hsub as Hshape.
      apply getDirectoryStructure_Some in Hshape as [_ [es [_ ->]]].
      exists dirPath, entries, entry. repeat split; assumption.
    + apply (IH Hlt (path_join h dirPath (d_name entry)) child n); try assumption.
      now apply (reach_entry h ignorePatterns root dirPath entries entry).
Qed.

Lemma node_from_name (h : Host) ignorePatterns root n :
  entry_names_are_base_names h ->
  node_from h ignorePatterns root n ->
  exists entry, ignored ignorePatterns entry = false /\ node_name n = d_name entry.
Proof.
  intros Hpaths [dirPath [entries [entry [_ [Hlist [Hentry [Hign Hnode]]]]]]].
  exists entry. split; [assumption|].
  destruct (Hpaths dirPath entries entry Hlist Hentry) as [Hname Hbase].
  destruct n as [name path | name children]; cbn in Hnode |- *.
  - now destruct Hnode as [_ [-> _]].
  - destruct Hnode as [_ ->]. rewrite Hbase. unfold Js.or_else.
    destruct (String.eqb_spec (d_name entry) ""); [contradiction | reflexivity].
Qed.

(** C3.  In the tree a scan returns, every node below the root stands for
    an entry that is not ignored, inside a directory that is reached through
    entries that are not ignored; the scan lists no other directory (the
    sub-tree of an ignored directory is never visited); and, the base name
    of an entry's path being the entry's name, no node below the root has a
    name that holds an ignore pattern as a substring. *)
Theorem ignored_entries_never_appear (h : Host) (dirPath : string)
        (maxDepth currentDepth : Z) (ignorePatterns : list string)
        (node : DirectoryNode) :
  getDirectoryStructure h dirPath maxDepth currentDepth ignorePatterns =
    Return (Some node) ->
  (forall n, In n (descendants node) -> node_from h ignorePatterns dirPath n)
  /\ (forall p,
         In p (visited h dirPath maxDepth currentDepth ignorePatterns) ->
         reachable h ignorePatterns dirPath p)
  /\ (entry_names_are_base_names h ->
      forall n pattern a b,
        In n (descendants node) -> In pattern ignorePatterns ->
        node_name n <> a +++ pattern +++ b).
Proof.
  intros Hscan.
  assert (forall n, In n (descendants node) -> node_from h ignorePatterns dirPath n)
    as Hfrom.
  { intros n Hn.
    apply (descendants_from_entries h maxDepth ignorePatterns dirPath
             currentDepth dirPath node n); [constructor | assumption | assumption]. }
  split; [exact Hfrom | split].
  - intros p Hp.
    apply (visited_reachable h maxDepth ignorePatterns dirPath currentDepth dirPath p);
      [constructor | assumption].
  - intros Hpaths n pattern a b Hn Hpattern Hname.
    destruct (node_from_name h ignorePatterns dirPath n Hpaths (Hfrom n Hn))
      as [entry [Hign Hentry]].
    assert (ignored ignorePatterns entry = true) as Habs.
    { apply ignored_spec. exists pattern, a, b. split; congruence. }
    congruence.
Qed.

Lemma sample_entry_names : entry_names_are_base_names sampleHost.
Proof.
  intros dirPath entries entry Hlist Hentry.
  cbn [sampleHost readdir path_base path_join] in *.
  unfold sampleReaddir in Hlist.
  listed_entries Hlist; try discriminate Hlist;
    injection Hlist as <-; cbn [In] in Hentry;
    repeat (destruct Hentry as [<- | Hentry]);
    try contradiction; (split; [discriminate | reflexivity]).
Qed.

(** C3 on the sample project [/p]: three entries of the root are ignored,
    two of them directories that are never listed. *)
Lemma ignored_entries_never_appear_witness :
  exists node,
    getDirectoryStructure sampleHost "/p" 3 0 defaultIgnorePatterns =
      Return (Some node)
    /\ map d_name
         (filter (ignored defaultIgnorePatterns)
            [file "package.json"; dir "node_modules"; dir "src"; file "README.md";
             dir ".git"; file "rebuild.sh"]) =
       ["node_modules"; ".git"; "rebuild.sh"]
    /\ map node_name (descendants node) =
       ["package.json"; "src"; "index.ts"; "lib"; "util.ts"; "README.md"]
    /\ visited sampleHost "/p" 3 0 defaultIgnorePatterns =
       ["/p"; "/p/src"; "/p/src/lib"]
    /\ (forall n, In n (descendants node) ->
                  node_from sampleHost defaultIgnorePatterns "/p" n)
    /\ (forall n pattern a b,
           In n (descendants node) -> In pattern defaultIgnorePatterns ->
           node_name n <> a +++ pattern +++ b).
Proof.
  eexists. split; [vm_compute; reflexivity|].
  split; [reflexivity|]. split; [reflexivity|]. split; [reflexivity|].
  pose proof (ignored_entries_never_appear sampleHost "/p" 3 0
                defaultIgnorePatterns _ eq_refl) as [Hfrom [_ Hnames]].
  split; [exact Hfrom | exact (Hnames sample_entry_names)].
Defined.

(** ** The project analyzer *)

(** Below [maxDepth] a scan that returns, returns a node. *)
Lemma getDirectoryStructure_Return (h : Host) dirPath maxDepth currentDepth
      ignorePatterns structure :
  (currentDepth < maxDepth)%Z ->
  getDirectoryStructure h dirPath maxDepth currentDepth ignorePatterns =
    Return structure ->
  exists node, structure = Some node.
Proof.
  intros Hlt. rewrite getDirectoryStructure_eq.
  destruct (Z.geb_spec currentDepth maxDepth) as [Hge | _]; [lia|].
  destruct (readdir h dirPath) as [entries | e]; cbn [bind try_catch];
    [|discriminate].
  destruct (scanEntries h _ dirPath ignorePatterns entries []) as [children | e];
    cbn [bind try_catch]; [|discriminate].
  intros Hreturn. injection Hreturn as <-. eauto.
Qed.

Lemma readPackageJson_fails (h : Host) (projectPath : string) :
  manifest_fails h projectPath -> readPackageJson h projectPath = Js.Null.
Proof.
  unfold readPackageJson.
  intros [[e He] | [content [Hread [e He]]]].
  - now rewrite He.
  - rewrite Hread. cbn [bind]. now rewrite He.
Qed.

(** What [analyzeProject] returns when the scan returns. *)
Lemma analyzeProject_scan_returns (h : Host) (projectPath : string)
      (structure : option DirectoryNode) :
  getDirectoryStructure h projectPath defaultMaxDepth 0 defaultIgnorePatterns =
    Return structure ->
  exists node entries,
    structure = Some node /\
    readdir h projectPath = Return entries /\
    let packageJson := readPackageJson h projectPath in
    let files := map d_name entries in
    analyzeProject h projectPath =
    Return
      (mkAnalysis README_TEMPLATE
         (mkProjectData
            (Js.or (Js.get packageJson "name") (Js.Str (path_base h projectPath)))
            (Js.or (Js.get packageJson "description") Js.Null)
            (Js.or (Js.get packageJson "version") Js.Null)
            (Js.or (Js.get packageJson "author") Js.Null)
            (Js.or (Js.get packageJson "license") Js.Null)
            (Js.or (Js.get packageJson "homepage") Js.Null)
            (Js.or (Js.get packageJson "repository") Js.Null)
            (Js.or (Js.get packageJson "scripts") (Js.Object []))
            (keys_or_empty (Js.get packageJson "dependencies"))
            (keys_or_empty (Js.get packageJson "devDependencies"))
            (fst (detect files))
            (snd (detect files))
            (Some node)
            (formatDirectoryStructure node 0)
            files)).
Proof.
  intros Hscan.
  assert (0 < defaultMaxDepth)%Z as Hlt by reflexivity.
  destruct (getDirectoryStructure_Return h _ _ _ _ _ Hlt Hscan) as [node ->].
  pose proof Hscan as Hshape.
  apply getDirectoryStructure_Some in Hshape as [_ [entries [Hlist _]]].
  exists node, entries. repeat split; [assumption|].
  unfold analyzeProject, readdir_names.
  rewrite Hscan, Hlist. reflexivity.
Qed.

Lemma analyzeProject_scan_throws (h : Host) (projectPath : string) (e : Js.Error) :
  getDirectoryStructure h projectPath defaultMaxDepth 0 defaultIgnorePatterns =
    Throw e ->
  analyzeProject h projectPath = Throw (failedToAnalyze e).
Proof. intros Hscan. unfold analyzeProject. now rewrite Hscan. Qed.

(** C5 (amended).  [analyzeProject] throws if and only if the scan of
    [projectPath] throws, and then throws the scan's error wrapped as
    "Failed to analyze project".  A manifest that cannot be read or parsed
    never makes it throw: [description], [version], [author], [license],
    [homepage] and [repository] are [null], [scripts] is the empty object,
    [dependencies] and [devDependencies] are empty.  [projectName] is not
    left unset: it is the base name of [projectPath]. *)
Theorem analysis_fails_only_with_scan (h : Host) (projectPath : string) :
  let scan :=
    getDirectoryStructure h projectPath defaultMaxDepth 0 defaultIgnorePatterns in
  (throws (analyzeProject h projectPath) <-> throws scan)
  /\ (forall e, scan = Throw e ->
                analyzeProject h projectPath = Throw (failedToAnalyze e))
  /\ (manifest_fails h projectPath ->
      forall structure, scan = Return structure ->
      exists a,
        analyzeProject h projectPath = Return a /\
        directoryStructure (projectData a) = structure /\
        description (projectData a) = Js.Null /\
        version (projectData a) = Js.Null /\
        author (projectData a) = Js.Null /\
        license (projectData a) = Js.Null /\
        homepage (projectData a) = Js.Null /\
        repository (projectData a) = Js.Null /\
        scripts (projectData a) = Js.Object [] /\
        dependencies (projectData a) = [] /\
        devDependencies (projectData a) = [] /\
        projectName (projectData a) = Js.Str (path_base h projectPath)).
Proof.
  intros scan. split; [|split].
  - split.
    + intros [e He]. destruct scan as [structure | e'] eqn:Hscan.
      * apply analyzeProject_scan_returns in Hscan
          as [node [entries [_ [_ Hreturn]]]].
        cbv zeta in Hreturn. congruence.
      * now exists e'.
    + intros [e He]. exists (failedToAnalyze e).
      now apply analyzeProject_scan_throws.
  - intros e. apply analyzeProject_scan_throws.
  - intros Hmanifest structure Hscan.
    apply analyzeProject_scan_returns in Hscan
      as [node [entries [-> [_ Hreturn]]]].
    cbv zeta in Hreturn.
    rewrite (readPackageJson_fails h projectPath Hmanifest) in Hreturn.
    eexists. split; [exact Hreturn|]. cbn. repeat split.
Qed.

(** C5 (amended) on [/m], whose manifest does not parse, and on [/locked],
    whose scan fails. *)
Lemma analysis_fails_only_with_scan_witness :
  manifest_fails sampleHost "/m"
  /\ (exists a,
         analyzeProject sampleHost "/m" = Return a /\
         description (projectData a) = Js.Null /\
         scripts (projectData a) = Js.Object [] /\
         dependencies (projectData a) = [])
  /\ analyzeProject sampleHost "/locked" =
     Throw (failedToAnalyze
              (failedToRead (failedToRead (accessDenied "scandir" "/locked/secret")))).
Proof.
  assert (manifest_fails sampleHost "/m") as Hfails.
  { right. exists "{". split; [reflexivity|]. eexists. reflexivity. }
  split; [exact Hfails | split].
  - destruct (proj2 (proj2 (analysis_fails_only_with_scan sampleHost "/m"))
                Hfails _ eq_refl)
      as [a [Ha [_ [Hd [_ [_ [_ [_ [_ [Hs [Hdeps _]]]]]]]]]]].
    exists a. auto.
  - apply (proj1 (proj2 (analysis_fails_only_with_scan sampleHost "/locked"))).
    reflexivity.
Defined.

(** C5 as stated fails on one field: [/py] has no manifest, and the
    [projectName] that [analyzeProject] returns is neither [null] nor
    empty. *)
Lemma analysis_projectName_counterexample :
  readFile sampleHost (path_join sampleHost "/py" "package.json") =
    Throw (noEntry "open" "/py/package.json")
  /\ exists a,
      analyzeProject sampleHost "/py" = Return a /\
      projectName (projectData a) = Js.Str "py" /\
      Js.truthy (projectName (projectData a)) = true.
Proof.
  split; [reflexivity|]. eexists. split; [vm_compute; reflexivity|].
  split; reflexivity.
Qed.

(** C10.  The [rootFiles] that [analyzeProject] returns are the names of
    the listing of the project root, all of them and in its order: no
    ignore pattern is applied.  So they may hold entries the scan left out
    of the tree, as [node_modules], [.git] and [rebuild.sh] in [/p]. *)
Theorem rootFiles_unfiltered :
  (forall (h : Host) (projectPath : string) (a : Analysis),
      analyzeProject h projectPath = Return a ->
      exists entries,
        readdir h projectPath = Return entries /\
        rootFiles (projectData a) = map d_name entries)
  /\ (exists a node,
         analyzeProject sampleHost "/p" = Return a /\
         directoryStructure (projectData a) = Some node /\
         rootFiles (projectData a) =
           ["package.json"; "node_modules"; "src"; "README.md"; ".git";
            "rebuild.sh"] /\
         map node_name (node_children node) =
           ["package.json"; "src"; "README.md"]).
Proof.
  split.
  - intros h projectPath a Ha.
    destruct (getDirectoryStructure h projectPath defaultMaxDepth 0
                defaultIgnorePatterns) as [structure | e] eqn:Hscan.
    + apply analyzeProject_scan_returns in Hscan
        as [node [entries [_ [Hlist Hreturn]]]].
      cbv zeta in Hreturn. rewrite Hreturn in Ha. injection Ha as <-.
      exists entries. split; [assumption | reflexivity].
    + apply analyzeProject_scan_throws in Hscan. congruence.
  - eexists. eexists. split; [vm_compute; reflexivity|].
    repeat split.
Qed.

(** C10 on the sample project [/py]. *)
Lemma rootFiles_unfiltered_witness :
  exists a,
    analyzeProject sampleHost "/py" = Return a /\
    rootFiles (projectData a) = ["requirements.txt"; "setup.py"].
Proof.
  destruct (analyzeProject sampleHost "/py") as [a | e] eqn:Ha;
    [|vm_compute in Ha; discriminate Ha].
  exists a. split; [reflexivity|].
  destruct (proj1 rootFiles_unfiltered sampleHost "/py" a Ha)
    as [entries [Hlist Hroot]].
  rewrite Hroot. injection Hlist as <-. reflexivity.
Defined.

(** ** Technology detection *)

Lemma fst_detectMarker (files : list string) marker label arrays :
  fst (detectMarker files marker label arrays) =
  fst arrays ++ (if Js.arr_includes files marker then [label] else []).
Proof.
  unfold detectMarker. destruct (Js.arr_includes files marker); cbn [fst];
    [reflexivity | now rewrite app_nil_r].
Qed.

Lemma fst_detectEnv (files : list string) arrays :
  fst (detectEnv files arrays) = fst arrays.
Proof. unfold detectEnv. now destruct (_ || _). Qed.

(** The chain of [if] statements is the marker table read in order. *)
Lemma detect_table (files : list string) :
  fst (detect files) = labelsInTableOrder files.
Proof.
  unfold detect. rewrite fst_detectEnv, !fst_detectMarker. cbn [fst].
  unfold labelsInTableOrder, markerTable. cbn [filter fst].
  repeat
    match goal with
    | |- context [Js.arr_includes files ?m] => destruct (Js.arr_includes files m)
    end; reflexivity.
Qed.

Lemma count_occ_map_filter {A : Type} (f : A -> bool) (g : A -> string)
      (l : list A) (x : string) :
  count_occ string_dec (map g (filter f l)) x <= count_occ string_dec (map g l) x.
Proof.
  induction l as [|y l IH]; [apply Nat.le_refl|].
  cbn [filter map count_occ]. destruct (f y); cbn [map count_occ];
    destruct (string_dec (g y) x); lia.
Qed.

Lemma count_label (files : list string) (label : string) :
  label <> "Python" ->
  count_occ string_dec (labelsInTableOrder files) label <= 1.
Proof.
  intros Hlabel. unfold labelsInTableOrder.
  etransitivity; [apply count_occ_map_filter|].
  unfold markerTable. cbn [map snd count_occ].
  repeat
    match goal with
    | |- context [string_dec ?s label] =>
        destruct (string_dec s label) as [<- | _]; cbn [string_dec]
    end; try congruence; cbn; lia.
Qed.

Lemma count_python (files : list string) :
  count_occ string_dec (labelsInTableOrder files) "Python" =
  (if Js.arr_includes files "requirements.txt" then 1 else 0) +
  (if Js.arr_includes files "setup.py" then 1 else 0).
Proof.
  unfold labelsInTableOrder, markerTable. cbn [filter fst].
  repeat
    match goal with
    | |- context [Js.arr_includes files ?m] => destruct (Js.arr_includes files m)
    end; reflexivity.
Qed.

Lemma labels_nil (files : list string) (marker label : string) :
  labelsInTableOrder files = [] ->
  In (marker, label) markerTable ->
  Js.arr_includes files marker = false.
Proof.
  intros Hnil Hin. destruct (Js.arr_includes files marker) eqn:Hinc;
    [exfalso | reflexivity].
  assert (In label (labelsInTableOrder files)) as Hlabel.
  { unfold labelsInTableOrder. apply in_map_iff. exists (marker, label).
    split; [reflexivity|]. apply filter_In. split; assumption. }
  rewrite Hnil in Hlabel. destruct Hlabel.
Qed.

Lemma arr_includes_insert (files1 files2 : list string) (marker x : string) :
  Js.arr_includes (files1 ++ marker :: files2) x =
  String.eqb x marker || Js.arr_includes (files1 ++ files2) x.
Proof.
  unfold Js.arr_includes. rewrite !existsb_app. cbn [existsb].
  destruct (existsb (String.eqb x) files1), (String.eqb x marker); reflexivity.
Qed.

Lemma labels_insert (files1 files2 : list string) (marker label : string) :
  In (marker, label) markerTable ->
  labelsInTableOrder (files1 ++ files2) = [] ->
  labelsInTableOrder (files1 ++ marker :: files2) = [label].
Proof.
  intros Hin Hnil.
  assert (labelsInTableOrder (files1 ++ marker :: files2) =
          map snd (filter (fun m => String.eqb (fst m) marker) markerTable))
    as ->.
  { unfold labelsInTableOrder. f_equal. apply filter_ext_in.
    intros [m l] Hm. cbn [fst]. rewrite arr_includes_insert.
    now rewrite (labels_nil _ m l Hnil Hm), orb_false_r. }
  unfold markerTable in Hin. cbn [In] in Hin.
  repeat (destruct Hin as [Hin | Hin]; [injection Hin as <- <-; reflexivity|]).
  destruct Hin.
Qed.

Lemma detect_NoDup (files : list string) :
  NoDup (fst (detect files)) <->
  ~ (In "requirements.txt" files /\ In "setup.py" files).
Proof.
  rewrite detect_table, (NoDup_count_occ string_dec), <- !arr_includes_In.
  split.
  - intros Hcount [Hreq Hsetup]. specialize (Hcount "Python").
    rewrite count_python, Hreq, Hsetup in Hcount. cbn in Hcount. lia.
  - intros Hboth label. destruct (string_dec label "Python") as [-> | Hlabel].
    + rewrite count_python.
      destruct (Js.arr_includes files "requirements.txt"),
               (Js.arr_includes files "setup.py"); cbn;
        solve [lia | exfalso; apply Hboth; split; reflexivity].
    + now apply count_label.
Qed.

(** C2 (amended).  The [detectedTechnologies] of [analyzeProject] are the
    labels of the markers found in the root listing, in table order.  A
    label other than "Python" occurs at most once and "Python" at most
    twice; the sequence is free of duplicates exactly when
    [requirements.txt] and [setup.py] are not both listed.  Adding one
    marker file to a listing that detects nothing gives exactly that
    marker's label. *)
Theorem technologies_in_table_order :
  (forall (h : Host) (projectPath : string) (a : Analysis),
      analyzeProject h projectPath = Return a ->
      detectedTechnologies (projectData a) =
      fst (detect (rootFiles (projectData a))))
  /\ (forall files,
         fst (detect files) = labelsInTableOrder files
         /\ (forall label,
                label <> "Python" ->
                count_occ string_dec (fst (detect files)) label <= 1)
         /\ count_occ string_dec (fst (detect files)) "Python" <= 2
         /\ (NoDup (fst (detect files)) <->
             ~ (In "requirements.txt" files /\ In "setup.py" files)))
  /\ (forall files1 files2 marker label,
         In (marker, label) markerTable ->
         fst (detect (files1 ++ files2)) = [] ->
         fst (detect (files1 ++ marker :: files2)) = [label]).
Proof.
  split; [|split].
  - intros h projectPath a Ha.
    destruct (getDirectoryStructure h projectPath defaultMaxDepth 0
                defaultIgnorePatterns) as [structure | e] eqn:Hscan.
    + apply analyzeProject_scan_returns in Hscan
        as [node [entries [_ [_ Hreturn]]]].
      cbv zeta in Hreturn. rewrite Hreturn in Ha. now injection Ha as <-.
    + apply analyzeProject_scan_throws in Hscan. congruence.
  - intros files. split; [apply detect_table | split; [|split]].
    + intros label Hlabel. rewrite detect_table. now apply count_label.
    + rewrite detect_table, count_python.
      destruct (Js.arr_includes files "requirements.txt"),
               (Js.arr_includes files "setup.py"); cbn; lia.
    + apply detect_NoDup.
  - intros files1 files2 marker label Hin. rewrite !detect_table.
    now apply labels_insert.
Qed.

(** C2 (amended) on sample listings. *)
Lemma technologies_in_table_order_witness :
  fst (detect ["README.md"; "src"]) = []
  /\ fst (detect ["README.md"; "Cargo.toml"; "src"]) = ["Rust"]
  /\ NoDup (fst (detect ["Dockerfile"; "setup.py"; "package.json"]))
  /\ exists a,
      analyzeProject sampleHost "/p" = Return a /\
      detectedTechnologies (projectData a) = ["Node.js"].
Proof.
  destruct technologies_in_table_order as [Hanalysis [Hdetect Hinsert]].
  split; [reflexivity | split; [|split]].
  - apply (Hinsert ["README.md"] ["src"] "Cargo.toml" "Rust").
    + unfold markerTable. cbn [In]. auto 10.
    + reflexivity.
  - apply (proj2 (proj2 (proj2 (Hdetect ["Dockerfile"; "setup.py"; "package.json"])))).
    intros [Hreq _]. cbn [In] in Hreq.
    repeat (destruct Hreq as [Hreq | Hreq]; [discriminate Hreq|]). exact Hreq.
  - destruct (analyzeProject sampleHost "/p") as [a | e] eqn:Ha;
      [|vm_compute in Ha; discriminate Ha].
    exists a. split; [reflexivity|].
    rewrite (Hanalysis sampleHost "/p" a Ha).
    vm_compute in Ha. injection Ha as <-. reflexivity.
Defined.

(** C2 as stated fails: [/py] lists both Python markers and
    [detectedTechnologies] holds "Python" twice. *)
Lemma technologies_duplicate_counterexample :
  exists a,
    analyzeProject sampleHost "/py" = Return a /\
    rootFiles (projectData a) = ["requirements.txt"; "setup.py"] /\
    detectedTechnologies (projectData a) = ["Python"; "Python"] /\
    ~ NoDup (detectedTechnologies (projectData a)).
Proof.
  eexists. split; [vm_compute; reflexivity|].
  split; [reflexivity | split; [reflexivity|]].
  cbn. intros Hnodup. inversion Hnodup as [|x l Hnotin _]. apply Hnotin. now left.
Qed.

(** ** The README renderer *)

Lemma generateReadme_sections (h : Host) (p : ProjectData) :
  generateReadme h p =
  (titleSection h p +++ badgesSection h p +++ descriptionSection h p +++
   technologiesSection p) +++
  installationSection p +++
  (usageSection h p +++ structureSection p +++ dependenciesSection p +++
   devDependenciesSection p +++ licenseSection h p +++ authorSection h p +++
   linksSection h p +++ footer).
Proof.
  unfold generateReadme. cbn [fold_left].
  change ("" +++ titleSection h p) with (titleSection h p).
  now rewrite !append_assoc.
Qed.




(** ** The dispatch handler *)

Lemma handleCallTool_returns (h : Host) (request : CallToolRequest) :
  exists result, handleCallTool h request = Return result.
Proof.
  unfold handleCallTool.
  match goal with
  | |- exists result, try_catch ?m _ = _ => destruct m as [result | e]
  end; cbn [try_catch]; eauto.
Qed.

(** C4.  The handler always returns a response and never throws.  When the
    operation behind one of the four tools throws, the response is the text
    "Error: " followed by the error's message, with [isError] set. *)
Theorem dispatch_reports_failures (h : Host) (request : CallToolRequest) :
  (exists result, handleCallTool h request = Return result)
  /\ forall e,
      (tool request = "read_project_structure" /\
       getDirectoryStructure h (arg_path request) (requestedDepth request) 0
                             defaultIgnorePatterns = Throw e)
      \/ (tool request = "read_file" /\
          readFile h (arg_path request) = Throw e)
      \/ (tool request = "analyze_project" /\
          analyzeProject h (arg_projectPath request) = Throw e)
      \/ (tool request = "generate_readme" /\
          analyzeProject h (arg_projectPath request) = Throw e) ->
      handleCallTool h request =
        Return (mkResult ("Error: " +++ Js.message e) true)
      /\ String.prefix "Error: " ("Error: " +++ Js.message e) = true.
Proof.
  split; [apply handleCallTool_returns|].
  intros e Hfails. split; [|apply prefix_spec; eauto].
  unfold handleCallTool, requestedDepth in *.
  destruct Hfails as [[-> Hop] | [[-> Hop] | [[-> Hop] | [-> Hop]]]];
    cbn [String.eqb Ascii.eqb Bool.eqb andb]; rewrite Hop; reflexivity.
Qed.

(** C4 on a file that does not exist and on a project whose scan fails. *)
Lemma dispatch_reports_failures_witness :
  handleCallTool sampleHost (mkRequest "read_file" "/nope" None "") =
    Return (mkResult "Error: ENOENT: no such file or directory, open '/nope'" true)
  /\ handleCallTool sampleHost (mkRequest "generate_readme" "" None "/locked") =
     Return
       (mkResult
          ("Error: " +++
           Js.message
             (failedToAnalyze
                (failedToRead
                   (failedToRead (accessDenied "scandir" "/locked/secret")))))
          true).
Proof.
  split.
  - apply (proj2 (dispatch_reports_failures sampleHost
                    (mkRequest "read_file" "/nope" None ""))
                 (noEntry "open" "/nope")).
    right. left. split; reflexivity.
  - apply (proj2 (dispatch_reports_failures sampleHost
                    (mkRequest "generate_readme" "" None "/locked"))).
    right. right. right. split; reflexivity.
Defined.

(** * Further properties of the program *)

(** ** The scanner: failures *)

Lemma scanEntries_throws_iff (h : Host) recurse visit dirPath ignorePatterns entries :
  (forall path,
      throws (recurse path) <->
      exists p, In p (visit path) /\ throws (readdir h p)) ->
  forall children,
    throws (scanEntries h recurse dirPath ignorePatterns entries children) <->
    exists p,
      In p (visitedEntries h recurse visit dirPath ignorePatterns entries) /\
      throws (readdir h p).
Proof.
  intros Hrec. induction entries as [|entry rest IH]; intros children;
    cbn [scanEntries visitedEntries].
  - split; [intros [e He]; discriminate He | intros [p [[] _]]].
  - destruct (ignored ignorePatterns entry); [apply IH|].
    destruct (d_isDirectory entry); [|apply IH].
    specialize (Hrec (path_join h dirPath (d_name entry))).
    destruct (recurse (path_join h dirPath (d_name entry))) as [sub | e] eqn:Hsub;
      cbn [bind].
    + assert (forall p, In p (visit (path_join h dirPath (d_name entry))) ->
                        ~ throws (readdir h p)) as Hquiet.
      { intros p Hp Hthrows.
        destruct (proj2 Hrec (ex_intro _ p (conj Hp Hthrows))) as [e He].
        discriminate He. }
      assert ((exists p,
                  In p (visit (path_join h dirPath (d_name entry)) ++
                        visitedEntries h recurse visit dirPath ignorePatterns rest) /\
                  throws (readdir h p)) <->
              exists p,
                In p (visitedEntries h recurse visit dirPath ignorePatterns rest) /\
                throws (readdir h p)) as Hskip.
      { split.
        - intros [p [Hp Hthrows]]. apply in_app_or in Hp as [Hp | Hp].
          + destruct (Hquiet p Hp Hthrows).
          + now exists p.
        - intros [p [Hp Hthrows]]. exists p. split; [|assumption].
          apply in_or_app. now right. }
      rewrite Hskip. destruct sub; apply IH.
    + rewrite app_nil_r. rewrite <- Hrec. split; intros _; now exists e.
Qed.

Lemma scan_throws_iff (h : Host) maxDepth ignorePatterns :
  forall currentDepth dirPath,
    throws (getDirectoryStructure h dirPath maxDepth currentDepth ignorePatterns) <->
    exists p,
      In p (visited h dirPath maxDepth currentDepth ignorePatterns) /\
      throws (readdir h p).
Proof.
  intros currentDepth.
  pattern currentDepth. apply (depth_induction maxDepth). clear currentDepth.
  intros currentDepth IH dirPath.
  rewrite getDirectoryStructure_eq, visited_eq.
  destruct (Z.geb_spec currentDepth maxDepth) as [Hge | Hlt].
  - split; [intros [e He]; discriminate He | intros [p [[] _]]].
  - specialize (IH Hlt).
    destruct (readdir h dirPath) as [entries | e] eqn:Hlist; cbn [bind try_catch].
    + pose proof (scanEntries_throws_iff h _ _ dirPath ignorePatterns entries IH [])
        as Hloop.
      destruct (scanEntries h _ dirPath ignorePatterns entries [])
        as [children | e] eqn:Hentries; cbn [bind try_catch].
      * split; [intros [e He]; discriminate He|].
        intros [p [[<- | Hp] Hthrows]].
        -- destruct Hthrows as [e He]. congruence.
        -- destruct (proj2 Hloop (ex_intro _ p (conj Hp Hthrows))) as [e He].
           discriminate He.
      * split; [|intros _; eexists; reflexivity].
        intros _. destruct (proj1 Hloop (ex_intro _ e eq_refl)) as [p [Hp Hthrows]].
        exists p. split; [now right | assumption].
    + split; [|intros _; eexists; reflexivity].
      intros _. exists dirPath. split; [now left|]. rewrite Hlist. now exists e.
Qed.

Lemma scan_error_shape (h : Host) dirPath maxDepth currentDepth ignorePatterns e :
  getDirectoryStructure h dirPath maxDepth currentDepth ignorePatterns = Throw e ->
  exists cause, e = failedToRead cause.
Proof.
  rewrite getDirectoryStructure_eq.
  destruct (Z.geb_spec currentDepth maxDepth); [discriminate|].
  destruct (readdir h dirPath) as [entries | e']; cbn [bind try_catch].
  - destruct (scanEntries h _ dirPath ignorePatterns entries []) as [children | e'];
      cbn [bind try_catch]; [discriminate|].
    intros He. injection He as <-. now exists e'.
  - intros He. injection He as <-. now exists e'.
Qed.

(** X1.  A scan throws exactly when [readdir] throws on one of the
    directories it lists; what it throws is an [Error] whose message starts
    with "Failed to read directory: ". *)
Theorem scan_fails_iff_unreadable (h : Host) (dirPath : string)
        (maxDepth currentDepth : Z) (ignorePatterns : list string) :
  (throws (getDirectoryStructure h dirPath maxDepth currentDepth ignorePatterns) <->
   exists p,
     In p (visited h dirPath maxDepth currentDepth ignorePatterns) /\
     throws (readdir h p))
  /\ forall e,
      getDirectoryStructure h dirPath maxDepth currentDepth ignorePatterns = Throw e ->
      Js.name e = "Error" /\
      String.prefix "Failed to read directory: " (Js.message e) = true.
Proof.
  split; [apply scan_throws_iff|].
  intros e He. apply scan_error_shape in He as [cause ->].
  split; [reflexivity|]. apply prefix_spec. now exists (Js.toString cause).
Qed.

(** X1 on [/locked], whose sub-directory [secret] cannot be listed. *)
Lemma scan_fails_iff_unreadable_witness :
  throws (getDirectoryStructure sampleHost "/locked" 3 0 defaultIgnorePatterns)
  /\ visited sampleHost "/locked" 3 0 defaultIgnorePatterns =
     ["/locked"; "/locked/secret"].
Proof.
  split; [|reflexivity].
  apply (proj1 (scan_fails_iff_unreadable sampleHost "/locked" 3 0
                  defaultIgnorePatterns)).
  exists "/locked/secret". split; [|eexists; reflexivity].
  vm_compute. right. left. reflexivity.
Defined.

(** ** The scanner: what a returned node holds *)

(** A loop that returns met no exception in a recursive call. *)
Lemma scanEntries_Return_total (h : Host) recurse dirPath ignorePatterns entries :
  forall children result,
    scanEntries h recurse dirPath ignorePatterns entries children = Return result ->
    forall entry,
      In entry entries -> ignored ignorePatterns entry = false ->
      d_isDirectory entry = true ->
      exists structure,
        recurse (path_join h dirPath (d_name entry)) = Return structure.
Proof.
  induction entries as [|entry rest IH]; intros children result Hscan e He Hign Hdir.
  - destruct He.
  - cbn [scanEntries] in Hscan. destruct He as [<- | He].
    + rewrite Hign, Hdir in Hscan.
      destruct (recurse (path_join h dirPath (d_name entry))) as [s | err];
        [eauto | discriminate Hscan].
    + destruct (ignored ignorePatterns entry); [eapply IH; eauto|].
      destruct (d_isDirectory entry); [|eapply IH; eauto].
      destruct (recurse (path_join h dirPath (d_name entry))) as [[sub|] | err];
        cbn [bind] in Hscan; [eapply IH; eauto | eapply IH; eauto | discriminate].
Qed.

Lemma getDirectoryStructure_total_below (h : Host) dirPath maxDepth currentDepth
      ignorePatterns node entries :
  getDirectoryStructure h dirPath maxDepth currentDepth ignorePatterns =
    Return (Some node) ->
  readdir h dirPath = Return entries ->
  forall entry,
    In entry entries -> ignored ignorePatterns entry = false ->
    d_isDirectory entry = true ->
    exists structure,
      getDirectoryStructure h (path_join h dirPath (d_name entry)) maxDepth
                            (currentDepth + 1)%Z ignorePatterns =
      Return structure.
Proof.
  rewrite getDirectoryStructure_eq.
  destruct (Z.geb_spec currentDepth maxDepth); [discriminate|].
  intros Hscan Hlist. rewrite Hlist in Hscan. cbn [bind] in Hscan.
  destruct (scanEntries h _ dirPath ignorePatterns entries []) as [children | e]
    eqn:Hentries; [|discriminate Hscan].
  intros entry He Hign Hdir.
  exact (scanEntries_Return_total h _ dirPath ignorePatterns entries [] children
           Hentries entry He Hign Hdir).
Qed.

Lemma scan_root_is_directory (h : Host) dirPath maxDepth currentDepth
      ignorePatterns node :
  getDirectoryStructure h dirPath maxDepth currentDepth ignorePatterns =
    Return (Some node) ->
  is_directory node = true.
Proof.
  intros Hscan. apply getDirectoryStructure_Some in Hscan as [_ [entries [_ ->]]].
  reflexivity.
Qed.

(** X2.  A returned node holds every file of the listing that is not
    ignored, once and in the order of the listing, with its name and full
    path; and while the next level is below [maxDepth] it holds one child
    for every entry that is not ignored, a directory node for a directory
    and a file node for a file, in the order of the listing. *)
Theorem scan_children_complete (h : Host) (dirPath : string)
        (maxDepth currentDepth : Z) (ignorePatterns : list string)
        (node : DirectoryNode) (entries : list Dirent) :
  getDirectoryStructure h dirPath maxDepth currentDepth ignorePatterns =
    Return (Some node) ->
  readdir h dirPath = Return entries ->
  filter (fun child => negb (is_directory child)) (node_children node) =
    map (fun entry => FileNode (d_name entry) (path_join h dirPath (d_name entry)))
        (filter (fun entry =>
                   negb (ignored ignorePatterns entry) && negb (d_isDirectory entry))
                entries)
  /\ ((currentDepth + 1 < maxDepth)%Z ->
      map is_directory (node_children node) =
      map d_isDirectory
          (filter (fun entry => negb (ignored ignorePatterns entry)) entries)).
Proof.
  intros Hscan Hlist.
  pose proof (getDirectoryStructure_total_below h _ _ _ _ _ _ Hscan Hlist) as Htotal.
  apply getDirectoryStructure_Some in Hscan as [Hlt [entries' [Hlist' ->]]].
  assert (entries' = entries) as -> by congruence.
  cbn [node_children]. clear Hlist Hlist'.
  split.
  - clear Htotal. induction entries as [|entry rest IH]; [reflexivity|].
    cbn [flat_map filter]. rewrite filter_app, IH. unfold entryNodes at 1.
    destruct (ignored ignorePatterns entry); cbn [negb andb]; [reflexivity|].
    destruct (d_isDirectory entry); cbn [negb]; [|reflexivity].
    destruct (getDirectoryStructure h _ maxDepth (currentDepth + 1) ignorePatterns)
      as [[sub|] | e] eqn:Hsub; try reflexivity.
    apply scan_root_is_directory in Hsub. cbn [filter]. now rewrite Hsub.
  - intros Hnext. induction entries as [|entry rest IH]; [reflexivity|].
    cbn [flat_map filter]. rewrite map_app, IH
      by (intros e He; apply Htotal; now right).
    unfold entryNodes at 1.
    destruct (ignored ignorePatterns entry) eqn:Hign; cbn [negb]; [reflexivity|].
    destruct (d_isDirectory entry) eqn:Hdir;
      [|cbn [map app is_directory]; now rewrite Hdir].
    destruct (Htotal entry (or_introl eq_refl) Hign Hdir) as [structure Hsub].
    rewrite Hsub.
    destruct (getDirectoryStructure_Return h _ _ _ _ _ Hnext Hsub) as [sub ->].
    apply scan_root_is_directory in Hsub. cbn [map app]. now rewrite Hsub, Hdir.
Qed.

(** X2 on the sample project [/p]: three of its six entries are ignored. *)
Lemma scan_children_complete_witness :
  exists node,
    getDirectoryStructure sampleHost "/p" 3 0 defaultIgnorePatterns =
      Return (Some node)
    /\ filter (fun child => negb (is_directory child)) (node_children node) =
       [FileNode "package.json" "/p/package.json";
        FileNode "README.md" "/p/README.md"]
    /\ map is_directory (node_children node) = [false; true; false].
Proof.
  eexists. split; [vm_compute; reflexivity|].
  destruct (scan_children_complete sampleHost "/p" 3 0 defaultIgnorePatterns
              _ _ eq_refl eq_refl) as [Hfiles Hkinds].
  split; [exact Hfiles | exact (Hkinds eq_refl)].
Defined.

Lemma includes_empty (s : string) : Js.includes s "" = true.
Proof. destruct s; reflexivity. Qed.

Lemma scanEntries_all_ignored (h : Host) recurse dirPath ignorePatterns entries
      children :
  (forall entry, In entry entries -> ignored ignorePatterns entry = true) ->
  scanEntries h recurse dirPath ignorePatterns entries children = Return children.
Proof.
  induction entries as [|entry rest IH]; intros Hall; [reflexivity|].
  cbn [scanEntries]. rewrite (Hall entry (or_introl eq_refl)).
  apply IH. intros e He. apply Hall. now right.
Qed.

(** X3.  The empty string is a substring of every name: a list of ignore
    patterns that holds it hides every entry, so the scan of a directory
    that can be listed returns a directory node without children and lists
    no other directory. *)
Theorem empty_pattern_hides_everything (h : Host) (dirPath : string)
        (maxDepth currentDepth : Z) (ignorePatterns : list string)
        (entries : list Dirent) :
  In "" ignorePatterns ->
  (currentDepth < maxDepth)%Z ->
  readdir h dirPath = Return entries ->
  getDirectoryStructure h dirPath maxDepth currentDepth ignorePatterns =
    Return (Some (DirNode (Js.or_else (path_base h dirPath) dirPath) []))
  /\ visited h dirPath maxDepth currentDepth ignorePatterns = [dirPath].
Proof.
  intros Hempty Hlt Hlist.
  assert (forall entry, ignored ignorePatterns entry = true) as Hall.
  { intros entry. unfold ignored. apply existsb_exists. exists "".
    split; [assumption | apply includes_empty]. }
  rewrite getDirectoryStructure_eq, visited_eq.
  destruct (Z.geb_spec currentDepth maxDepth); [lia|].
  rewrite Hlist. cbn [bind].
  rewrite scanEntries_all_ignored by (intros; apply Hall).
  split; [reflexivity|]. f_equal.
  clear Hlist. induction entries as [|entry rest IH]; [reflexivity|].
  cbn [visitedEntries]. now rewrite Hall.
Qed.

(** X3 on the sample project [/p]. *)
Lemma empty_pattern_hides_everything_witness :
  getDirectoryStructure sampleHost "/p" 3 0 [".git"; ""] =
    Return (Some (DirNode "p" []))
  /\ visited sampleHost "/p" 3 0 [".git"; ""] = ["/p"].
Proof.
  apply (empty_pattern_hides_everything sampleHost "/p" 3 0 [".git"; ""]
           [file "package.json"; dir "node_modules"; dir "src"; file "README.md";
            dir ".git"; file "rebuild.sh"]).
  - cbn. auto.
  - reflexivity.
  - reflexivity.
Defined.

(** ** The renderer: indentation *)








(** ** The analyzer: config files *)

Lemma snd_detectMarker (files : list string) marker label arrays :
  snd (detectMarker files marker label arrays) =
  snd arrays ++ (if Js.arr_includes files marker then [marker] else []).
Proof.
  unfold detectMarker. destruct (Js.arr_includes files marker); cbn [snd];
    [reflexivity | now rewrite app_nil_r].
Qed.

Lemma find_env_example (files : list string) :
  find (fun f => String.eqb f ".env.example") files =
  if Js.arr_includes files ".env.example" then Some ".env.example" else None.
Proof.
  unfold Js.arr_includes. induction files as [|f files IH]; [reflexivity|].
  cbn [find existsb]. rewrite (String.eqb_sym ".env.example" f).
  destruct (String.eqb_spec f ".env.example") as [-> | _]; [reflexivity | exact IH].
Qed.

Lemma snd_detectEnv (files : list string) arrays :
  snd (detectEnv files arrays) = snd arrays ++ envConfig files.
Proof.
  unfold detectEnv, envConfig. rewrite find_env_example.
  destruct (Js.arr_includes files ".env.example"),
           (Js.arr_includes files ".env.template"); cbn [orb snd];
    try reflexivity. now rewrite app_nil_r.
Qed.

Lemma detect_config_table (files : list string) :
  snd (detect files) =
  map fst (filter (fun m => Js.arr_includes files (fst m)) markerTable) ++
  envConfig files.
Proof.
  unfold detect. rewrite snd_detectEnv, !snd_detectMarker. cbn [snd].
  f_equal. unfold markerTable. cbn [filter fst].
  repeat
    match goal with
    | |- context [Js.arr_includes files ?m] => destruct (Js.arr_includes files m)
    end; reflexivity.
Qed.

(** X6.  The config files are the markers found in the root listing, in
    table order, followed by one environment template at most:
    [.env.example] when it is listed, even beside [.env.template].  Every
    config file is an entry of the listing, and there is one per detected
    technology besides the environment template. *)
Theorem configFiles_are_listed (files : list string) :
  snd (detect files) =
    map fst (filter (fun m => Js.arr_includes files (fst m)) markerTable) ++
    envConfig files
  /\ Forall (fun config => In config files) (snd (detect files))
  /\ List.length (snd (detect files)) =
     List.length (fst (detect files)) + List.length (envConfig files)
  /\ (In ".env.example" files -> envConfig files = [".env.example"]).
Proof.
  split; [apply detect_config_table | split; [|split]].
  - rewrite detect_config_table. apply Forall_app. split.
    + apply Forall_forall. intros config Hconfig.
      apply in_map_iff in Hconfig as [m [<- Hm]].
      apply filter_In in Hm as [_ Hm]. now apply arr_includes_In.
    + unfold envConfig.
      destruct (Js.arr_includes files ".env.example") eqn:Hexample;
        [repeat constructor; now apply arr_includes_In|].
      destruct (Js.arr_includes files ".env.template") eqn:Htemplate;
        repeat constructor. now apply arr_includes_In.
  - rewrite detect_config_table, detect_table. unfold labelsInTableOrder.
    now rewrite length_app, !length_map.
  - intros Hexample. apply arr_includes_In in Hexample.
    unfold envConfig. now rewrite Hexample.
Qed.

(** X6 on a listing with both environment templates. *)
Lemma configFiles_are_listed_witness :
  snd (detect [".env.template"; "go.mod"; ".env.example"; "package.json"]) =
    ["package.json"; "go.mod"; ".env.example"]
  /\ envConfig [".env.template"; "go.mod"; ".env.example"; "package.json"] =
     [".env.example"].
Proof.
  split; [reflexivity|].
  apply (proj2 (proj2 (proj2 (configFiles_are_listed
           [".env.template"; "go.mod"; ".env.example"; "package.json"])))).
  cbn. auto.
Defined.

(** ** The README renderer: sections and data *)

Lemma length_positive {A : Type} (l : list A) :
  (0 <? List.length l)%nat = false <-> l = [].
Proof. destruct l; cbn; split; intros H; congruence. Qed.

Lemma if_nonempty (b : bool) (s : string) :
  s <> "" -> (if b then s else "") = "" <-> b = false.
Proof.
  intros Hs. destruct b; split; intros H; try reflexivity; try discriminate H.
  contradiction.
Qed.

(** X7.  A section of the README is left out exactly when its data is
    absent: the description, license and author when the field is falsy,
    the technologies, dependencies and dev dependencies when the list is
    empty, the usage when [scripts] has no key, the project structure when
    the rendered tree is empty, the links when neither [homepage] nor
    [repository] is set. *)
Theorem sections_follow_data (h : Host) (p : ProjectData) :
  (descriptionSection h p = "" <-> Js.truthy (description p) = false)
  /\ (technologiesSection p = "" <-> detectedTechnologies p = [])
  /\ (usageSection h p = "" <-> Js.keys (scripts p) = [])
  /\ (structureSection p = "" <-> directoryStructureFormatted p = "")
  /\ (dependenciesSection p = "" <-> dependencies p = [])
  /\ (devDependenciesSection p = "" <-> devDependencies p = [])
  /\ (licenseSection h p = "" <-> Js.truthy (license p) = false)
  /\ (authorSection h p = "" <-> Js.truthy (author p) = false)
  /\ (linksSection h p = "" <->
      Js.truthy (homepage p) = false /\ Js.truthy (repository p) = false).
Proof.
  repeat match goal with |- _ /\ _ => split end.
  - apply if_nonempty. discriminate.
  - rewrite <- (length_positive (detectedTechnologies p)).
    apply if_nonempty. discriminate.
  - rewrite <- (length_positive (Js.keys (scripts p))).
    apply if_nonempty. discriminate.
  - unfold structureSection.
    rewrite <- (String.eqb_eq (directoryStructureFormatted p) "").
    rewrite <- negb_false_iff. apply if_nonempty. discriminate.
  - rewrite <- (length_positive (dependencies p)).
    apply if_nonempty. discriminate.
  - rewrite <- (length_positive (devDependencies p)).
    apply if_nonempty. discriminate.
  - apply if_nonempty. discriminate.
  - apply if_nonempty. discriminate.
  - rewrite <- orb_false_iff. apply if_nonempty. discriminate.
Qed.

Lemma app_if_nil {A : Type} (b : bool) (x : A) (l : list A) :
  (if b then [x] else []) ++ l = [] <-> b = false /\ l = [].
Proof.
  destruct b; cbn; split; [discriminate | intros [H _]; discriminate H | auto |].
  now intros [_ ->].
Qed.

Lemma join_nonempty (sep s : string) (l : list string) :
  s <> "" -> Js.join sep (s :: l) <> "".
Proof.
  intros Hs. unfold Js.join. cbn [String.concat].
  destruct l; [assumption|]. destruct s; [contradiction | discriminate].
Qed.

(** X8.  The badge line is left out exactly when no badge applies: no
    version, no license, and none of Node.js, TypeScript, Python, Rust and
    Go among the detected technologies.  There are seven badges at most. *)
Theorem badges_follow_data (h : Host) (p : ProjectData) :
  (badgesSection h p = "" <->
   Js.truthy (version p) = false /\ Js.truthy (license p) = false /\
   Js.arr_includes (detectedTechnologies p) "Node.js" = false /\
   Js.arr_includes (detectedTechnologies p) "TypeScript" = false /\
   Js.arr_includes (detectedTechnologies p) "Python" = false /\
   Js.arr_includes (detectedTechnologies p) "Rust" = false /\
   Js.arr_includes (detectedTechnologies p) "Go" = false)
  /\ List.length (badges h p) <= 7.
Proof.
  split.
  - assert (badges h p = [] <->
            Js.truthy (version p) = false /\ Js.truthy (license p) = false /\
            Js.arr_includes (detectedTechnologies p) "Node.js" = false /\
            Js.arr_includes (detectedTechnologies p) "TypeScript" = false /\
            Js.arr_includes (detectedTechnologies p) "Python" = false /\
            Js.arr_includes (detectedTechnologies p) "Rust" = false /\
            Js.arr_includes (detectedTechnologies p) "Go" = false) as Hnil.
    { unfold badges. rewrite !app_if_nil.
      destruct (Js.arr_includes (detectedTechnologies p) "Go"); intuition congruence. }
    rewrite <- Hnil. unfold badgesSection.
    assert (Forall (fun b => b <> "") (badges h p)) as Hbadges.
    { unfold badges. repeat (apply Forall_app; split);
        match goal with |- Forall _ (if ?b then _ else _) => destruct b end;
        repeat constructor; discriminate. }
    destruct (badges h p) as [|b bs]; [now split|].
    cbn [List.length Nat.ltb Nat.leb]. split; [|discriminate].
    intros Hs. exfalso. inversion Hbadges as [|? ? Hb _]; subst.
    apply (join_nonempty " " b bs Hb).
    destruct (Js.join " " (b :: bs)); [reflexivity | discriminate Hs].
  - unfold badges. rewrite !length_app.
    repeat match goal with |- context [if ?b then _ else _] => destruct b end;
      cbn; lia.
Qed.




(** ** Analysis and rendering together *)

Lemma analyzeProject_Return (h : Host) (projectPath : string) (a : Analysis) :
  analyzeProject h projectPath = Return a ->
  exists node entries,
    getDirectoryStructure h projectPath defaultMaxDepth 0 defaultIgnorePatterns =
      Return (Some node) /\
    readdir h projectPath = Return entries /\
    a =
    mkAnalysis README_TEMPLATE
      (mkProjectData
         (Js.or (Js.get (readPackageJson h projectPath) "name")
                (Js.Str (path_base h projectPath)))
         (Js.or (Js.get (readPackageJson h projectPath) "description") Js.Null)
         (Js.or (Js.get (readPackageJson h projectPath) "version") Js.Null)
         (Js.or (Js.get (readPackageJson h projectPath) "author") Js.Null)
         (Js.or (Js.get (readPackageJson h projectPath) "license") Js.Null)
         (Js.or (Js.get (readPackageJson h projectPath) "homepage") Js.Null)
         (Js.or (Js.get (readPackageJson h projectPath) "repository") Js.Null)
         (Js.or (Js.get (readPackageJson h projectPath) "scripts") (Js.Object []))
         (keys_or_empty (Js.get (readPackageJson h projectPath) "dependencies"))
         (keys_or_empty (Js.get (readPackageJson h projectPath) "devDependencies"))
         (fst (detect (map d_name entries)))
         (snd (detect (map d_name entries)))
         (Some node)
         (formatDirectoryStructure node 0)
         (map d_name entries)).
Proof.
  intros Ha.
  destruct (getDirectoryStructure h projectPath defaultMaxDepth 0
              defaultIgnorePatterns) as [structure | e] eqn:Hscan.
  - apply analyzeProject_scan_returns in Hscan
      as [node [entries [-> [Hlist Hreturn]]]].
    cbv zeta in Hreturn. exists node, entries. repeat split; [assumption|].
    congruence.
  - apply analyzeProject_scan_throws in Hscan. congruence.
Qed.

(** X10.  The analysis of a project always carries a directory node for
    the root, named after the base name of [projectPath] (or the path itself
    when the base name is empty); its rendered form starts with the line of
    the root and is never empty, so the README of an analysis always has its
    Project Structure section, with the rendered tree inside a code block. *)
Theorem analysis_structure_rendered (h : Host) (projectPath : string)
        (a : Analysis) :
  analyzeProject h projectPath = Return a ->
  exists children,
    directoryStructure (projectData a) =
      Some (DirNode (Js.or_else (path_base h projectPath) projectPath) children)
    /\ directoryStructureFormatted (projectData a) =
       Js.or_else (path_base h projectPath) projectPath +++ "/" +++ Js.LF +++
       String.concat ""
         (map (fun child => formatDirectoryStructure child 1) children)
    /\ structureSection (projectData a) =
       structureHeading +++ "```" +++ Js.LF +++
       directoryStructureFormatted (projectData a) +++ "```" +++ Js.LF +++ Js.LF.
Proof.
  intros Ha. apply analyzeProject_Return in Ha as [node [entries [Hscan [_ ->]]]].
  apply getDirectoryStructure_Some in Hscan as [_ [es [_ ->]]].
  eexists. cbn [projectData directoryStructure directoryStructureFormatted].
  split; [reflexivity|].
  assert (forall name children,
             formatDirectoryStructure (DirNode name children) 0 =
             name +++ "/" +++ Js.LF +++
             String.concat ""
               (map (fun child => formatDirectoryStructure child 1) children))
    as Hformat.
  { intros name children. cbn [formatDirectoryStructure Js.repeat].
    rewrite format_children. now rewrite !append_assoc. }
  split; [apply Hformat|].
  unfold structureSection, structureHeading.
  cbn [directoryStructureFormatted]. rewrite Hformat.
  destruct (Js.or_else (path_base h projectPath) projectPath); cbn [String.append];
    now rewrite !append_assoc.
Qed.

(** X10 on the sample project [/py]. *)
Lemma analysis_structure_rendered_witness :
  exists a,
    analyzeProject sampleHost "/py" = Return a /\
    directoryStructureFormatted (projectData a) =
      "py/" +++ Js.LF +++ "  requirements.txt" +++ Js.LF +++ "  setup.py" +++ Js.LF.
Proof.
  destruct (analyzeProject sampleHost "/py") as [a | e] eqn:Ha;
    [|vm_compute in Ha; discriminate Ha].
  exists a. split; [reflexivity|].
  destruct (analysis_structure_rendered sampleHost "/py" a Ha)
    as [children [Hnode [Htext _]]].
  rewrite Htext. vm_compute in Ha. injection Ha as <-.
  cbn [projectData directoryStructure] in Hnode. injection Hnode as <-.
  reflexivity.
Defined.

(** X11.  For a project whose manifest cannot be read or parsed and whose
    root listing holds no marker file, the README is the title with the
    base name of [projectPath], the Installation section with the clone
    instruction, the Project Structure section and the footer: no badges,
    description, technologies, usage, dependencies, license, author or
    links. *)
Theorem readme_of_bare_project (h : Host) (projectPath : string) (a : Analysis) :
  analyzeProject h projectPath = Return a ->
  manifest_fails h projectPath ->
  detectedTechnologies (projectData a) = [] ->
  generateReadme h (projectData a) =
  "# " +++ path_base h projectPath +++ Js.LF +++ Js.LF +++
  installationHeading +++
  "Clone the repository and follow the setup instructions." +++ Js.LF +++ Js.LF +++
  structureSection (projectData a) +++
  footer.
Proof.
  intros Ha Hmanifest Hnone.
  apply analyzeProject_Return in Ha as [node [entries [_ [_ ->]]]].
  rewrite (readPackageJson_fails h projectPath Hmanifest) in *.
  cbn [projectData detectedTechnologies] in Hnone.
  rewrite generateReadme_sections.
  unfold titleSection, badgesSection, badges, descriptionSection,
    technologiesSection, installationSection, installationBody, usageSection,
    dependenciesSection, devDependenciesSection, licenseSection, authorSection,
    linksSection.
  cbn [projectData projectName description version author license homepage
       repository scripts dependencies devDependencies detectedTechnologies].
  rewrite Hnone. cbn. now rewrite !append_assoc.
Qed.

(** X11 on the sample project [/empty]. *)
Lemma readme_of_bare_project_witness :
  exists a,
    analyzeProject sampleHost "/empty" = Return a /\
    generateReadme sampleHost (projectData a) =
    "# empty" +++ Js.LF +++ Js.LF +++
    installationHeading +++
    "Clone the repository and follow the setup instructions." +++ Js.LF +++ Js.LF +++
    structureHeading +++ "```" +++ Js.LF +++ "empty/" +++ Js.LF +++ "```" +++
    Js.LF +++ Js.LF +++
    footer.
Proof.
  destruct (analyzeProject sampleHost "/empty") as [a | e] eqn:Ha;
    [|vm_compute in Ha; discriminate Ha].
  exists a. split; [reflexivity|].
  rewrite (readme_of_bare_project sampleHost "/empty" a Ha).
  - vm_compute in Ha. injection Ha as <-. reflexivity.
  - left. eexists. reflexivity.
  - vm_compute in Ha. injection Ha as <-. reflexivity.
Defined.

(** ** The dispatch handler and the tool list *)

Lemma toString_failedToRead (e : Js.Error) :
  Js.toString (failedToRead e) =
  "Error: Failed to read directory: " +++ Js.toString e.
Proof. reflexivity. Qed.

Lemma scan_unreadable_root (h : Host) dirPath maxDepth currentDepth ignorePatterns e :
  (currentDepth < maxDepth)%Z ->
  readdir h dirPath = Throw e ->
  getDirectoryStructure h dirPath maxDepth currentDepth ignorePatterns =
    Throw (failedToRead e).
Proof.
  intros Hlt Hlist. rewrite getDirectoryStructure_eq.
  destruct (Z.geb_spec currentDepth maxDepth); [lia|]. now rewrite Hlist.
Qed.

(** X12.  A tool name that is not in the tool list is answered with the
    error response "Error: Unknown tool: " followed by the name, whatever
    the arguments.  The four listed names are distinct and every required
    argument is a declared property. *)
Theorem listed_tools_are_dispatched (h : Host) (request : CallToolRequest) :
  (~ In (tool request) (map t_name listTools) ->
   handleCallTool h request =
     Return (mkResult ("Error: Unknown tool: " +++ tool request) true))
  /\ NoDup (map t_name listTools)
  /\ Forall (fun t => incl (t_required t) (map p_name (t_properties t))) listTools.
Proof.
  split; [|split].
  - intros Hnot. unfold handleCallTool.
    repeat
      match goal with
      | |- context [String.eqb (tool request) ?name] =>
          destruct (String.eqb_spec (tool request) name) as [Heq | _];
          [exfalso; apply Hnot; rewrite Heq; cbn; auto 6|]
      end.
    reflexivity.
  - cbn. repeat constructor; cbn; intuition discriminate.
  - unfold listTools.
    repeat (apply Forall_cons; [intros x Hx; cbn in *; intuition|]).
    apply Forall_nil.
Qed.

(** X12 on a tool that is not listed. *)
Lemma listed_tools_are_dispatched_witness :
  handleCallTool sampleHost (mkRequest "write_file" "/p/x" None "") =
    Return (mkResult "Error: Unknown tool: write_file" true).
Proof.
  apply (proj1 (listed_tools_are_dispatched sampleHost
                  (mkRequest "write_file" "/p/x" None ""))).
  cbn. intuition discriminate.
Defined.

(** X13.  When the root directory itself cannot be listed, the response
    names both layers that wrapped the error: [analyze_project] and
    [generate_readme] answer "Error: Failed to analyze project: Error:
    Failed to read directory: " followed by the error of [readdir], and
    [read_project_structure] with a positive [maxDepth] answers "Error:
    Failed to read directory: " followed by it; both with [isError] set. *)
Theorem unreadable_root_response (h : Host) (request : CallToolRequest)
        (e : Js.Error) :
  (tool request = "analyze_project" \/ tool request = "generate_readme" ->
   readdir h (arg_projectPath request) = Throw e ->
   handleCallTool h request =
     Return
       (mkResult
          ("Error: Failed to analyze project: Error: Failed to read directory: " +++
           Js.toString e)
          true))
  /\ (tool request = "read_project_structure" ->
      (0 < requestedDepth request)%Z ->
      readdir h (arg_path request) = Throw e ->
      handleCallTool h request =
        Return
          (mkResult ("Error: Failed to read directory: " +++ Js.toString e) true)).
Proof.
  split.
  - intros Htool Hlist.
    assert (analyzeProject h (arg_projectPath request) =
            Throw (failedToAnalyze (failedToRead e))) as Hanalysis.
    { apply analyzeProject_scan_throws. now apply scan_unreadable_root. }
    unfold handleCallTool.
    destruct Htool as [-> | ->]; cbn [String.eqb Ascii.eqb Bool.eqb andb];
      rewrite Hanalysis; reflexivity.
  - intros Htool Hdepth Hlist. unfold handleCallTool, requestedDepth in *.
    rewrite Htool. cbn [String.eqb Ascii.eqb Bool.eqb andb].
    now rewrite (scan_unreadable_root h _ _ 0 _ e Hdepth Hlist).
Qed.

(** X13 on a project path that does not exist. *)
Lemma unreadable_root_response_witness :
  handleCallTool sampleHost (mkRequest "generate_readme" "" None "/missing") =
  Return
    (mkResult
       ("Error: Failed to analyze project: Error: Failed to read directory: " +++
        "Error: ENOENT: no such file or directory, scandir '/missing'")
       true).
Proof.
  apply (proj1 (unreadable_root_response sampleHost
                  (mkRequest "generate_readme" "" None "/missing")
                  (noEntry "scandir" "/missing"))).
  - now right.
  - reflexivity.
Defined.

(** X14.  [read_project_structure] with a [maxDepth] of zero or less is not
    an error: whatever the path, even one that does not exist, the response
    is the serialization of [null] with no error flag, and no directory is
    listed. *)
Theorem structure_without_depth (h : Host) (request : CallToolRequest) :
  tool request = "read_project_structure" ->
  (requestedDepth request <= 0)%Z ->
  handleCallTool h request = Return (mkResult (stringify_structure h None) false)
  /\ visited h (arg_path request) (requestedDepth request) 0
             defaultIgnorePatterns = [].
Proof.
  intros Htool Hdepth. unfold handleCallTool, requestedDepth in *.
  rewrite Htool. cbn [String.eqb Ascii.eqb Bool.eqb andb].
  rewrite getDirectoryStructure_eq, visited_eq.
  destruct (Z.geb_spec 0 (match arg_maxDepth request with
                          | Some d => d
                          | None => 3%Z
                          end)); [now split | lia].
Qed.

(** X14 on a path that does not exist. *)
Lemma structure_without_depth_witness :
  handleCallTool sampleHost
    (mkRequest "read_project_structure" "/missing" (Some 0%Z) "") =
  Return (mkResult "<structure>" false).
Proof.
  apply (structure_without_depth sampleHost
           (mkRequest "read_project_structure" "/missing" (Some 0%Z) ""));
    [reflexivity | cbn; lia].
Defined.

(** ** The analyzer: a manifest that parses *)

Lemma readPackageJson_parsed (h : Host) (projectPath content : string)
      (manifest : Js.Value) :
  readFile h (path_join h projectPath "package.json") = Return content ->
  JSON_parse h content = Return manifest ->
  readPackageJson h projectPath = manifest.
Proof.
  intros Hread Hparse. unfold readPackageJson.
  rewrite Hread. cbn [bind]. now rewrite Hparse.
Qed.

Lemma get_without_properties (v : Js.Value) (key : string) :
  Js.own_properties v = [] -> Js.get v key = Js.Undefined.
Proof. intros Hnone. unfold Js.get. now rewrite Hnone. Qed.

(** X15.  With a manifest that parses: a [name] that is a string is the
    project name unless it is empty, and then the base name of
    [projectPath] is; [dependencies] and [devDependencies] that are objects
    give their keys, in order; a manifest without [dependencies] gives the
    empty list; and a manifest that has no property at all ([null], a
    number, [{}]) leaves every field as a missing manifest does. *)
Theorem manifest_fields (h : Host) (projectPath content : string)
        (manifest : Js.Value) (a : Analysis) :
  readFile h (path_join h projectPath "package.json") = Return content ->
  JSON_parse h content = Return manifest ->
  analyzeProject h projectPath = Return a ->
  (forall s,
      Js.get manifest "name" = Js.Str s ->
      projectName (projectData a) =
      Js.Str (Js.or_else s (path_base h projectPath)))
  /\ (forall properties,
         Js.get manifest "dependencies" = Js.Object properties ->
         dependencies (projectData a) = map fst properties)
  /\ (forall properties,
         Js.get manifest "devDependencies" = Js.Object properties ->
         devDependencies (projectData a) = map fst properties)
  /\ (Js.get manifest "dependencies" = Js.Undefined ->
      dependencies (projectData a) = [])
  /\ (Js.own_properties manifest = [] ->
      projectName (projectData a) = Js.Str (path_base h projectPath) /\
      description (projectData a) = Js.Null /\
      version (projectData a) = Js.Null /\
      author (projectData a) = Js.Null /\
      license (projectData a) = Js.Null /\
      homepage (projectData a) = Js.Null /\
      repository (projectData a) = Js.Null /\
      scripts (projectData a) = Js.Object [] /\
      dependencies (projectData a) = [] /\
      devDependencies (projectData a) = []).
Proof.
  intros Hread Hparse Ha.
  apply analyzeProject_Return in Ha as [node [entries [_ [_ ->]]]].
  rewrite (readPackageJson_parsed h projectPath content manifest Hread Hparse).
  cbn [projectData projectName description version author license homepage
       repository scripts dependencies devDependencies].
  repeat match goal with |- _ /\ _ => split end.
  - intros s ->. unfold Js.or, Js.or_else. cbn [Js.truthy].
    now destruct (String.eqb s "").
  - intros properties ->. reflexivity.
  - intros properties ->. reflexivity.
  - intros ->. reflexivity.
  - intros Hnone. rewrite !(get_without_properties manifest _ Hnone).
    repeat split.
Qed.

(** X15 on the sample project [/p]. *)
Lemma manifest_fields_witness :
  exists a,
    analyzeProject sampleHost "/p" = Return a /\
    projectName (projectData a) = Js.Str "foo" /\
    dependencies (projectData a) = ["left-pad"].
Proof.
  destruct (analyzeProject sampleHost "/p") as [a | e] eqn:Ha;
    [|vm_compute in Ha; discriminate Ha].
  exists a. split; [reflexivity|].
  destruct (manifest_fields sampleHost "/p" samplePackageJson _ a
              eq_refl eq_refl Ha) as [Hname [Hdeps _]].
  split.
  - exact (Hname "foo" eq_refl).
  - exact (Hdeps [("left-pad", Js.Str "^1.0.0")] eq_refl).
Defined.

(** ** The tools together *)

(** X16.  [read_project_structure] without [maxDepth] and
    [analyze_project] succeed on the same paths: each answers without the
    error flag exactly when the scan of the path with the default depth and
    patterns returns; [generate_readme] answers without the error flag only
    on such a path; and the tree inside an analysis is the tree
    [read_project_structure] serializes. *)
Theorem tools_agree_on_paths (h : Host) (path unused : string) :
  let scan := getDirectoryStructure h path defaultMaxDepth 0 defaultIgnorePatterns in
  let answers request :=
    exists result, handleCallTool h request = Return result /\ isError result = false in
  (answers (mkRequest "read_project_structure" path None unused) <->
   exists structure, scan = Return structure)
  /\ (answers (mkRequest "analyze_project" unused None path) <->
      exists structure, scan = Return structure)
  /\ (answers (mkRequest "generate_readme" unused None path) ->
      exists structure, scan = Return structure)
  /\ forall a,
      analyzeProject h path = Return a ->
      handleCallTool h (mkRequest "read_project_structure" path None unused) =
      Return (mkResult (stringify_structure h (directoryStructure (projectData a)))
                       false).
Proof.
  intros scan answers. subst answers. cbv beta.
  assert (forall structure,
             scan = Return structure ->
             exists a, analyzeProject h path = Return a /\
                       directoryStructure (projectData a) = structure) as Hreturns.
  { intros structure Hscan.
    apply analyzeProject_scan_returns in Hscan
      as [node [entries [-> [_ Hreturn]]]].
    cbv zeta in Hreturn. eexists. split; [exact Hreturn | reflexivity]. }
  assert (forall e, scan = Throw e ->
                    analyzeProject h path = Throw (failedToAnalyze e)) as Hthrows
      by apply analyzeProject_scan_throws.
  assert (handleCallTool h (mkRequest "read_project_structure" path None unused) =
          match scan with
          | Return structure =>
              Return (mkResult (stringify_structure h structure) false)
          | Throw e => Return (mkResult ("Error: " +++ Js.message e) true)
          end) as Hstructure.
  { unfold handleCallTool, scan. cbn [tool arg_path arg_maxDepth String.eqb
                                      Ascii.eqb Bool.eqb andb].
    change 3%Z with defaultMaxDepth.
    now destruct (getDirectoryStructure h path defaultMaxDepth 0
                    defaultIgnorePatterns). }
  assert (handleCallTool h (mkRequest "analyze_project" unused None path) =
          match analyzeProject h path with
          | Return a => Return (mkResult (stringify_analysis h a) false)
          | Throw e => Return (mkResult ("Error: " +++ Js.message e) true)
          end) as Hanalyze.
  { unfold handleCallTool. cbn [tool arg_projectPath String.eqb Ascii.eqb
                                Bool.eqb andb].
    now destruct (analyzeProject h path). }
  assert (handleCallTool h (mkRequest "generate_readme" unused None path) =
          match analyzeProject h path with
          | Return a => Return (mkResult (generateReadme h (projectData a)) false)
          | Throw e => Return (mkResult ("Error: " +++ Js.message e) true)
          end) as Hgenerate.
  { unfold handleCallTool. cbn [tool arg_projectPath String.eqb Ascii.eqb
                                Bool.eqb andb].
    now destruct (analyzeProject h path). }
  rewrite Hstructure, Hanalyze, Hgenerate.
  destruct scan as [structure | e] eqn:Hscan.
  - destruct (Hreturns structure eq_refl) as [a [Ha Htree]]. rewrite Ha.
    split; [|split; [|split]].
    + split; intros _; eexists; try split; reflexivity.
    + split; intros _; eexists; try split; reflexivity.
    + intros _. eexists. reflexivity.
    + intros a' Ha'. injection Ha' as <-. now rewrite Htree.
  - rewrite (Hthrows e eq_refl).
    split; [|split; [|split]].
    + split; [|intros [structure Hs]; discriminate Hs].
      intros [result [Hresult Herror]]. injection Hresult as <-. discriminate Herror.
    + split; [|intros [structure Hs]; discriminate Hs].
      intros [result [Hresult Herror]]. injection Hresult as <-. discriminate Herror.
    + intros [result [Hresult Herror]]. injection Hresult as <-. discriminate Herror.
    + intros a Ha. discriminate Ha.
Qed.

(** ** Detection, label by label *)

(** X17.  A technology is detected exactly when one of its marker files is
    an entry of the root listing: "Python" for [requirements.txt] or
    [setup.py], every other label for its one marker. *)
Theorem label_detected_iff_marker_listed (files : list string) (label : string) :
  In label (fst (detect files)) <->
  exists marker, In (marker, label) markerTable /\ In marker files.
Proof.
  rewrite detect_table. unfold labelsInTableOrder. rewrite in_map_iff. split.
  - intros [[marker l] [Hl Hm]]. cbn [snd] in Hl. subst l.
    apply filter_In in Hm as [Htable Hlisted]. cbn [fst] in Hlisted.
    exists marker. split; [assumption | now apply arr_includes_In].
  - intros [marker [Htable Hlisted]]. exists (marker, label).
    split; [reflexivity|]. apply filter_In. split; [assumption|].
    now apply arr_includes_In.
Qed.

(** ** Bullet lists *)

Lemma splitLines_concat_lines (lines : list string) :
  forallb noLineFeed lines = true ->
  splitLines (String.concat "" (map (fun l => l +++ Js.LF) lines)) = lines.
Proof.
  induction lines as [|l ls IH]; intros Hplain; [reflexivity|].
  cbn [forallb] in Hplain. apply andb_true_iff in Hplain as [Hl Hls].
  cbn [map]. rewrite concat_nosep_cons, append_assoc.
  rewrite splitLines_line by assumption. now rewrite IH.
Qed.

(** X18.  The list of a section (technologies, dependencies, dev
    dependencies) has one line per item, in the order of the items: "- "
    and the item.  When no item holds a line feed, the lines of the text
    are these bullets and nothing else. *)
Theorem bullets_one_line_per_item (items : list string) :
  bullets items = String.concat "" (map (fun item => bullet item +++ Js.LF) items)
  /\ (forallb noLineFeed items = true ->
      splitLines (bullets items) = map bullet items).
Proof.
  assert (bullets items =
          String.concat "" (map (fun item => bullet item +++ Js.LF) items)) as Heq.
  { unfold bullets.
    rewrite (fold_left_append (fun x => "- " +++ x +++ Js.LF)).
    reflexivity. }
  split; [exact Heq|].
  intros Hplain. rewrite Heq, <- (map_map bullet (fun l => l +++ Js.LF)).
  apply splitLines_concat_lines. rewrite forallb_forall in Hplain |- *.
  intros l Hl. apply in_map_iff in Hl as [item [<- Hitem]].
  unfold bullet. rewrite noLineFeed_append. now rewrite (Hplain item Hitem).
Qed.

(** X18 on two dependency names. *)
Lemma bullets_one_line_per_item_witness :
  splitLines (bullets ["left-pad"; "typescript"]) = ["- left-pad"; "- typescript"].
Proof.
  exact (proj2 (bullets_one_line_per_item ["left-pad"; "typescript"]) eq_refl).
Defined.

(** ** Scanning, rendering and reading back *)

Lemma plainTree_nodes (node : DirectoryNode) :
  plainName (is_directory node) (node_name node) = true ->
  (forall n, In n (descendants node) ->
             plainName (is_directory n) (node_name n) = true) ->
  plainTree node = true.
Proof.
  induction node as [name path | name children IH] using DirectoryNode_induction;
    intros Hroot Hbelow.
  - exact Hroot.
  - cbn [plainTree]. cbn [is_directory node_name] in Hroot. rewrite Hroot.
    cbn [andb]. apply forallb_forall. intros child Hchild.
    rewrite Forall_forall in IH. apply (IH child Hchild).
    + apply Hbelow. cbn [descendants]. apply in_flat_map.
      exists child. split; [assumption | now left].
    + intros n Hn. apply Hbelow. cbn [descendants]. apply in_flat_map.
      exists child. split; [assumption | now right].
Qed.

Lemma plainName_directory (s : string) :
  plainName false s = true -> plainName true s = true.
Proof.
  unfold plainName. intros H. apply andb_true_iff in H as [-> _]. reflexivity.
Qed.

Lemma node_from_plain (h : Host) ignorePatterns root n :
  entry_names_are_base_names h ->
  plain_entries h ->
  node_from h ignorePatterns root n ->
  plainName (is_directory n) (node_name n) = true.
Proof.
  intros Hpaths Hplain [dirPath [entries [entry [_ [Hlist [Hentry [_ Hnode]]]]]]].
  destruct (Hpaths dirPath entries entry Hlist Hentry) as [Hname Hbase].
  specialize (Hplain dirPath entries entry Hlist Hentry).
  destruct n as [name path | name children]; cbn in Hnode |- *.
  - destruct Hnode as [_ [-> _]]. exact Hplain.
  - destruct Hnode as [_ ->]. rewrite Hbase. unfold Js.or_else.
    destruct (String.eqb_spec (d_name entry) ""); [contradiction|].
    now apply plainName_directory.
Qed.

(** X19.  On a file system whose entry names hold no line feed, do not
    start with a space and do not end in [/] (the base name of an entry's
    path being the entry's name), the rendering of a scanned tree can be
    read back: its lines give every node of the tree, in pre-order, with
    its kind, name and nesting depth. *)
Theorem scanned_tree_reads_back (h : Host) (dirPath : string)
        (maxDepth currentDepth : Z) (ignorePatterns : list string)
        (node : DirectoryNode) :
  getDirectoryStructure h dirPath maxDepth currentDepth ignorePatterns =
    Return (Some node) ->
  entry_names_are_base_names h ->
  plain_entries h ->
  plainName true (Js.or_else (path_base h dirPath) dirPath) = true ->
  parseStructure (formatDirectoryStructure node 0) = preorder node 0.
Proof.
  intros Hscan Hpaths Hplain Hroot.
  rewrite format_lines. apply parseStructure_lines. apply plainTree_preorder.
  apply plainTree_nodes.
  - pose proof Hscan as Hshape.
    apply getDirectoryStructure_Some in Hshape as [_ [entries [_ ->]]].
    exact Hroot.
  - intros n Hn. apply (node_from_plain h ignorePatterns dirPath); try assumption.
    apply (descendants_from_entries h maxDepth ignorePatterns dirPath
             currentDepth dirPath node n); [constructor | assumption | assumption].
Qed.

Lemma sample_plain_entries : plain_entries sampleHost.
Proof.
  intros dirPath entries entry Hlist Hentry.
  cbn [sampleHost readdir] in Hlist. unfold sampleReaddir in Hlist.
  listed_entries Hlist; try discriminate Hlist;
    injection Hlist as <-; cbn [In] in Hentry;
    repeat (destruct Hentry as [<- | Hentry]);
    try contradiction; reflexivity.
Qed.

(** X19 on the sample project [/p]. *)
Lemma scanned_tree_reads_back_witness :
  exists node,
    getDirectoryStructure sampleHost "/p" 3 0 defaultIgnorePatterns =
      Return (Some node)
    /\ names_and_depths (parseStructure (formatDirectoryStructure node 0)) =
       [("p", 0); ("package.json", 1); ("src", 1); ("index.ts", 2); ("lib", 2);
        ("util.ts", 3); ("README.md", 1)].
Proof.
  destruct (getDirectoryStructure sampleHost "/p" 3 0 defaultIgnorePatterns)
    as [[node|] | e] eqn:Hscan; try (vm_compute in Hscan; discriminate Hscan).
  exists node. split; [reflexivity|].
  rewrite (scanned_tree_reads_back sampleHost "/p" 3 0 defaultIgnorePatterns node
             Hscan sample_entry_names sample_plain_entries eq_refl).
  vm_compute in Hscan. injection Hscan as <-. reflexivity.
Defined.
